(** * cupoch: the FLANN-backed k-d tree (src/cupoch/geometry/kdtree_flann.cu)

    A shallow embedding of [KDTreeFlann]: the index object with its five
    members, [SetRawData] / [SetGeometry], the three batch searches, the
    dispatcher [Search] and the single-query overloads.

    Conventions of the embedding.
    - [size_t] and [int] values are integers in [Z]; every conversion and
      every product the source computes in a fixed width is reduced
      explicitly ([to_size_t], [to_int]).  [size()] of a vector is the length
      of the list that models it.
    - [float] is IEEE binary32, given by the specification floats of the
      library at precision 24 and exponent bound 128.
    - A thrust vector is a list.  Allocating what the code means to
      allocate never fails in the model; a [resize] to a negative [int],
      which converts to a size no vector can have, throws.
    - FLANN is an external engine: its two search entry points and the two
      forms of [flann::SearchParams] construction are fields of the class
      [FlannEngine]; every call made to it is also recorded as an [Event],
      with the arguments it received.
    - A search returns [Some] result, or does not return: [None].  That
      happens where the source calls through a null [flann_index_]
      (undefined behaviour), and where [resize] throws. *)

From Stdlib Require Import String Ascii.
From Stdlib Require Import ZArith List Bool Lia.
From Stdlib Require Import Floats.SpecFloat.
Import ListNotations.
Open Scope Z_scope.

(** ** Machine integers and floats *)

Module Machine.

(** Conversion of an integer value to [size_t] (64 bits, unsigned). *)
Definition to_size_t (z : Z) : Z := z mod 2 ^ 64.

(** Conversion of an integer value to [int] (32 bits, two's complement). *)
Definition to_int (z : Z) : Z := (z + 2 ^ 31) mod 2 ^ 32 - 2 ^ 31.

Definition float : Type := spec_float.
Definition fzero : float := S754_zero false.
Definition fmul (a b : float) : float := SFmul 24 128 a b.
Definition fneg (a : float) : float := SFopp a.

End Machine.
Import Machine.

(** ** thrust vectors *)

Module Thrust.

Definition empty {A : Type} (v : list A) : bool :=
  match v with [] => true | _ :: _ => false end.

Definition size {A : Type} (v : list A) : Z := Z.of_nat (length v).

(** [v.resize(n)]: keeps the first [n] elements, appends value-initialised
    ones up to length [n]. *)
Definition resize {A : Type} (n : Z) (dflt : A) (v : list A) : list A :=
  firstn (Z.to_nat n) v ++ repeat dflt (Z.to_nat n - length v)%nat.

(** Elements written from the start of a buffer, through an iterator or a
    raw pointer: the buffer keeps its length, slots that are not written
    keep their content. *)
Definition write_back {A : Type} (out buf : list A) : list A :=
  firstn (length buf) (out ++ skipn (length out) buf).

(** [thrust::transform(src.begin(), src.end(), dst.begin(), f)]. *)
Definition transform {A B : Type} (f : A -> B) (src : list A) (dst : list B)
  : list B :=
  write_back (map f src) dst.

End Thrust.
Import Thrust.

(** ** Points *)

Record float4_t := make_float4_t { f4x : float; f4y : float; f4z : float; f4w : float }.

Definition float4_zero : float4_t := make_float4_t fzero fzero fzero fzero.

Record Vector2f := mkVector2f { v2_0 : float; v2_1 : float }.
Record Vector3f := mkVector3f { v3_0 : float; v3_1 : float; v3_2 : float }.

(** The point types the templates are instantiated at: a fixed-size Eigen
    vector with its [SizeAtCompileTime] and the specialisation of
    [convert_float4_functor] for that size. *)
Class EigenVector (T : Type) := {
  SizeAtCompileTime : Z;
  convert_float4_functor : T -> float4_t
}.

#[export] Instance EigenVector3f : EigenVector Vector3f := {
  SizeAtCompileTime := 3;
  convert_float4_functor x := make_float4_t (v3_0 x) (v3_1 x) (v3_2 x) fzero
}.

#[export] Instance EigenVector2f : EigenVector Vector2f := {
  SizeAtCompileTime := 2;
  convert_float4_functor x := make_float4_t (v2_0 x) (v2_1 x) fzero fzero
}.

(** ** The engine interface *)

Module Flann.

(** [flann::Matrix<A>]: a view (pointer, rows, cols, stride) of a buffer;
    [stride] is [None] where the source leaves it to the default. *)
Record Matrix (A : Type) := mkMatrix {
  mat_data : list A;
  rows : Z;
  cols : Z;
  stride : option Z
}.
Arguments mkMatrix {A}.
Arguments mat_data {A}.
Arguments rows {A}.
Arguments cols {A}.
Arguments stride {A}.

(** The members of [flann::SearchParams] the source gives a value to. *)
Record SearchParams := mkSearchParams {
  checks : Z;
  eps : float;
  max_neighbors : Z;
  matrices_in_gpu_ram : bool
}.

Definition set_max_neighbors (n : Z) (p : SearchParams) : SearchParams :=
  mkSearchParams (checks p) (eps p) n (matrices_in_gpu_ram p).

Definition set_matrices_in_gpu_ram (b : bool) (p : SearchParams) : SearchParams :=
  mkSearchParams (checks p) (eps p) (max_neighbors p) b.

(** [flann::KDTreeCuda3dIndex<flann::L2<float>>], constructed over a
    dataset with default index parameters; [index_built] is set by
    [buildIndex()]. *)
Record KDTreeCuda3dIndex := mkIndex {
  index_dataset : Matrix float4_t;
  index_built : bool
}.

(** What a search writes to the two result buffers, and the [int] it
    returns. *)
Record Answer := mkAnswer {
  out_indices : list Z;
  out_dists : list float;
  count : Z
}.

Class FlannEngine := {
  (** [flann::SearchParams param;] *)
  SearchParams_default : SearchParams;
  (** [flann::SearchParams param(checks, eps);] *)
  SearchParams_of : Z -> float -> SearchParams;
  knnSearch : KDTreeCuda3dIndex -> Matrix float4_t -> Matrix Z -> Matrix float ->
              Z -> SearchParams -> Answer;
  radiusSearch : KDTreeCuda3dIndex -> Matrix float4_t -> Matrix Z -> Matrix float ->
                 float -> SearchParams -> Answer
}.

End Flann.
Import Flann.

(** ** Observable effects *)

Inductive Event :=
| LogWarning (msg : string)
| BuildIndex (dataset : Matrix float4_t)
| KnnSearchCall (index : KDTreeCuda3dIndex) (queries : Matrix float4_t)
                (indices_flann : Matrix Z) (dists_flann : Matrix float)
                (knn : Z) (param : SearchParams)
| RadiusSearchCall (index : KDTreeCuda3dIndex) (queries : Matrix float4_t)
                   (indices_flann : Matrix Z) (dists_flann : Matrix float)
                   (radius : float) (param : SearchParams).

Definition is_search_call (e : Event) : bool :=
  match e with
  | KnnSearchCall _ _ _ _ _ _ | RadiusSearchCall _ _ _ _ _ _ => true
  | LogWarning _ | BuildIndex _ => false
  end.

(** ** The index object *)

Record KDTreeFlann := mkKDTreeFlann {
  data_ : list float4_t;
  flann_dataset_ : option (Matrix float4_t);
  flann_index_ : option KDTreeCuda3dIndex;
  dimension_ : Z;
  dataset_size_ : Z
}.

(** Modelled from the spec: the class declaration (kdtree_flann.h) is not
    among the sources; the default-constructed object is the state the spec
    calls [Empty]: no data, no engine handles, dimension and dataset size 0. *)
Definition KDTreeFlann_new : KDTreeFlann :=
  mkKDTreeFlann [] None None 0 0.

Record BuildResult := mkBuildResult {
  built_ok : bool;
  built_this : KDTreeFlann;
  built_events : list Event
}.

Definition newline : string := String (ascii_of_nat 10) EmptyString.

Definition SetRawData_warning : string :=
  ("[KDTreeFlann::SetRawData] Failed due to no data." ++ newline)%string.

Definition SetGeometry_warning : string :=
  "[KDTreeFlann::SetGeometry] Unsupported Geometry type."%string.

Definition SetRawData {T : Type} `{EigenVector T}
    (this : KDTreeFlann) (data : list T) : BuildResult :=
  (* dimension_ = T::SizeAtCompileTime; dataset_size_ = data.size(); *)
  let this1 :=
    mkKDTreeFlann (data_ this) (flann_dataset_ this) (flann_index_ this)
                  (to_size_t SizeAtCompileTime) (size data) in
  if (dimension_ this1 =? 0) || (dataset_size_ this1 =? 0) then
    mkBuildResult false this1 [LogWarning SetRawData_warning]
  else
    let data1 := resize (dataset_size_ this1) float4_zero (data_ this1) in
    let data2 := transform convert_float4_functor data data1 in
    let dataset :=
      mkMatrix data2 (dataset_size_ this1) (dimension_ this1) (Some 16) in
    let index := mkIndex dataset true in
    mkBuildResult true
      (mkKDTreeFlann data2 (Some dataset) (Some index)
                     (dimension_ this1) (dataset_size_ this1))
      [BuildIndex dataset].

(** Modelled from the spec: the geometry classes (geometry.h, pointcloud.h,
    trianglemesh.h) are not among the sources.  The kinds are those
    [SetGeometry] names, with one more for any other value of the tag. *)
Inductive GeometryType :=
| Unspecified | PointCloud | TriangleMesh | Image | OtherGeometryType (tag : Z).

(** Modelled from the spec: a geometry is given by its dynamic class, which
    fixes what [GetGeometryType] returns; a point cloud carries [points_], a
    triangle mesh [vertices_], each a device vector of points of one of the
    instantiated point types. *)
Inductive Geometry (TP TM : Type) :=
| APointCloud (points_ : list TP)
| ATriangleMesh (vertices_ : list TM)
| AnImage
| AnUnspecified
| AnotherGeometry (tag : Z).
Arguments APointCloud {TP TM}.
Arguments ATriangleMesh {TP TM}.
Arguments AnImage {TP TM}.
Arguments AnUnspecified {TP TM}.
Arguments AnotherGeometry {TP TM}.

Definition GetGeometryType {TP TM : Type} (g : Geometry TP TM) : GeometryType :=
  match g with
  | APointCloud _ => PointCloud
  | ATriangleMesh _ => TriangleMesh
  | AnImage => Image
  | AnUnspecified => Unspecified
  | AnotherGeometry tag => OtherGeometryType tag
  end.

Definition SetGeometry {TP TM : Type} `{EigenVector TP} `{EigenVector TM}
    (this : KDTreeFlann) (geometry : Geometry TP TM) : BuildResult :=
  match geometry with
  | APointCloud points_ => SetRawData this points_
  | ATriangleMesh vertices_ => SetRawData this vertices_
  | AnImage | AnUnspecified | AnotherGeometry _ =>
      mkBuildResult false this [LogWarning SetGeometry_warning]
  end.

(** [KDTreeFlann::KDTreeFlann(const Geometry &data)]. *)
Definition KDTreeFlann_of {TP TM : Type} `{EigenVector TP} `{EigenVector TM}
    (data : Geometry TP TM) : KDTreeFlann :=
  built_this (SetGeometry KDTreeFlann_new data).

(** ** Searches *)

Record SearchResult := mkSearchResult {
  ret : Z;
  indices : list Z;
  distance2 : list float;
  events : list Event
}.

(** [return -1;] before anything is staged: the caller's vectors are as they
    were and nothing has been called. *)
Definition rejected (indices : list Z) (distance2 : list float) : SearchResult :=
  mkSearchResult (-1) indices distance2 [].

(** Modelled from the spec: the search parameter classes
    (kdtree_search_param.h) are not among the sources.  The search types are
    those [Search] names, with one more for any other value of the tag. *)
Inductive SearchType :=
| Knn | Radius | Hybrid | OtherSearchType (tag : Z).

(** Modelled from the spec: a parameter is given by its dynamic class, which
    fixes what [GetSearchType] returns and which members the casts in
    [Search] read: [knn_], [radius_], or [radius_] and [max_nn_]. *)
Inductive KDTreeSearchParam :=
| KDTreeSearchParamKNN (knn : Z)
| KDTreeSearchParamRadius (radius : float)
| KDTreeSearchParamHybrid (radius : float) (max_nn : Z)
| KDTreeSearchParamOther (tag : Z).

Definition GetSearchType (param : KDTreeSearchParam) : SearchType :=
  match param with
  | KDTreeSearchParamKNN _ => Knn
  | KDTreeSearchParamRadius _ => Radius
  | KDTreeSearchParamHybrid _ _ => Hybrid
  | KDTreeSearchParamOther tag => OtherSearchType tag
  end.

Section Searches.

Context {engine : FlannEngine}.

(** The fixed maximum neighbour count, a macro defined outside the
    sources. *)
Variable NUM_MAX_NN : Z.

(** The staging all three searches share: the queries converted to the
    padded layout, and the view of them handed to the engine. *)
Definition stage_queries {T : Type} `{EigenVector T}
    (this : KDTreeFlann) (query : list T) : Matrix float4_t :=
  let query_f4 :=
    transform convert_float4_functor query
              (repeat float4_zero (length query)) in
  mkMatrix query_f4 (size query) (dimension_ this) (Some 16).

Definition SearchKNN {T : Type} `{EigenVector T}
    (this : KDTreeFlann) (query : list T) (knn : Z)
    (indices : list Z) (distance2 : list float) : option SearchResult :=
  if empty (data_ this) || empty query || (dataset_size_ this <=? 0)
     || (knn <? 0) || (knn >? NUM_MAX_NN)
  then Some (rejected indices distance2)
  else if negb (to_size_t SizeAtCompileTime =? dimension_ this)
  then Some (rejected indices distance2)
  else
    let query_flann := stage_queries this query in
    (* const int total_size = query.size() * knn; *)
    let total_size := to_int (to_size_t (size query * knn)) in
    (* indices.resize(total_size): a negative total_size converts to a size
       of at least 2^64 - 2^31 elements, above max_size() of the vector;
       resize throws, before the engine is reached. *)
    if total_size <? 0 then None else
    let indices1 := resize (to_size_t total_size) 0 indices in
    let distance21 := resize (to_size_t total_size) fzero distance2 in
    let indices_flann := mkMatrix indices1 (rows query_flann) knn None in
    let dists_flann := mkMatrix distance21 (rows query_flann) knn None in
    let param := set_matrices_in_gpu_ram true SearchParams_default in
    match flann_index_ this with
    | None => None
    | Some index =>
        let a := knnSearch index query_flann indices_flann dists_flann
                           knn param in
        Some (mkSearchResult (count a)
                (write_back (out_indices a) indices1)
                (write_back (out_dists a) distance21)
                [KnnSearchCall index query_flann indices_flann dists_flann
                               knn param])
    end.

Definition SearchRadius {T : Type} `{EigenVector T}
    (this : KDTreeFlann) (query : list T) (radius : float)
    (indices : list Z) (distance2 : list float) : option SearchResult :=
  if empty (data_ this) || empty query || (dataset_size_ this <=? 0)
  then Some (rejected indices distance2)
  else if negb (to_size_t SizeAtCompileTime =? dimension_ this)
  then Some (rejected indices distance2)
  else
    let query_flann := stage_queries this query in
    let param :=
      set_matrices_in_gpu_ram true
        (set_max_neighbors NUM_MAX_NN (SearchParams_of (-1) fzero)) in
    let indices1 := resize (to_size_t (size query * NUM_MAX_NN)) 0 indices in
    let distance21 :=
      resize (to_size_t (size query * NUM_MAX_NN)) fzero distance2 in
    let indices_flann :=
      mkMatrix indices1 (rows query_flann) NUM_MAX_NN None in
    let dists_flann :=
      mkMatrix distance21 (rows query_flann) NUM_MAX_NN None in
    match flann_index_ this with
    | None => None
    | Some index =>
        let a := radiusSearch index query_flann indices_flann dists_flann
                              (fmul radius radius) param in
        Some (mkSearchResult (count a)
                (write_back (out_indices a) indices1)
                (write_back (out_dists a) distance21)
                [RadiusSearchCall index query_flann indices_flann dists_flann
                                  (fmul radius radius) param])
    end.

Definition SearchHybrid {T : Type} `{EigenVector T}
    (this : KDTreeFlann) (query : list T) (radius : float) (max_nn : Z)
    (indices : list Z) (distance2 : list float) : option SearchResult :=
  if empty (data_ this) || empty query || (dataset_size_ this <=? 0)
     || (max_nn <? 0)
  then Some (rejected indices distance2)
  else if negb (to_size_t SizeAtCompileTime =? dimension_ this)
  then Some (rejected indices distance2)
  else
    let query_flann := stage_queries this query in
    let param :=
      set_matrices_in_gpu_ram true
        (set_max_neighbors max_nn (SearchParams_of (-1) fzero)) in
    let indices1 := resize (to_size_t (size query * max_nn)) 0 indices in
    let distance21 :=
      resize (to_size_t (size query * max_nn)) fzero distance2 in
    let indices_flann := mkMatrix indices1 (rows query_flann) max_nn None in
    let dists_flann := mkMatrix distance21 (rows query_flann) max_nn None in
    match flann_index_ this with
    | None => None
    | Some index =>
        let a := radiusSearch index query_flann indices_flann dists_flann
                              (fmul radius radius) param in
        Some (mkSearchResult (count a)
                (write_back (out_indices a) indices1)
                (write_back (out_dists a) distance21)
                [RadiusSearchCall index query_flann indices_flann dists_flann
                                  (fmul radius radius) param])
    end.

(** The members the casts in [Search] read; a cast to a class the object
    does not have is not modelled (the dispatch never performs one). *)
Definition knn_ (param : KDTreeSearchParam) : Z :=
  match param with KDTreeSearchParamKNN k => k | _ => 0 end.

Definition radius_ (param : KDTreeSearchParam) : float :=
  match param with
  | KDTreeSearchParamRadius r | KDTreeSearchParamHybrid r _ => r
  | _ => fzero
  end.

Definition max_nn_ (param : KDTreeSearchParam) : Z :=
  match param with KDTreeSearchParamHybrid _ m => m | _ => 0 end.

Definition Search {T : Type} `{EigenVector T}
    (this : KDTreeFlann) (query : list T) (param : KDTreeSearchParam)
    (indices : list Z) (distance2 : list float) : option SearchResult :=
  match GetSearchType param with
  | Knn => SearchKNN this query (knn_ param) indices distance2
  | Radius => SearchRadius this query (radius_ param) indices distance2
  | Hybrid =>
      SearchHybrid this query (radius_ param) (max_nn_ param)
                   indices distance2
  | OtherSearchType _ => Some (rejected indices distance2)
  end.

(** *** Single-query overloads

    Each builds a one-element device vector and two empty device vectors,
    calls the batch form, and assigns the device vectors to the caller's
    host vectors. *)

(** [hv = dv;]: the host vector takes the content of the device vector,
    whatever it held. *)
Definition assign {A : Type} (hv dv : list A) : list A := dv.

Definition unwrap (indices_hv : list Z) (distance2_hv : list float)
    (result : option SearchResult) : option SearchResult :=
  match result with
  | None => None
  | Some r =>
      Some (mkSearchResult (ret r)
              (assign indices_hv (indices r))
              (assign distance2_hv (distance2 r))
              (events r))
  end.

Definition Search_single {T : Type} `{EigenVector T}
    (this : KDTreeFlann) (query : T) (param : KDTreeSearchParam)
    (indices : list Z) (distance2 : list float) : option SearchResult :=
  let query_dv := repeat query 1 in
  let indices_dv := [] in
  let distance2_dv := [] in
  unwrap indices distance2
         (Search this query_dv param indices_dv distance2_dv).

Definition SearchKNN_single {T : Type} `{EigenVector T}
    (this : KDTreeFlann) (query : T) (knn : Z)
    (indices : list Z) (distance2 : list float) : option SearchResult :=
  let query_dv := repeat query 1 in
  let indices_dv := [] in
  let distance2_dv := [] in
  unwrap indices distance2
         (SearchKNN this query_dv knn indices_dv distance2_dv).

Definition SearchRadius_single {T : Type} `{EigenVector T}
    (this : KDTreeFlann) (query : T) (radius : float)
    (indices : list Z) (distance2 : list float) : option SearchResult :=
  let query_dv := repeat query 1 in
  let indices_dv := [] in
  let distance2_dv := [] in
  unwrap indices distance2
         (SearchRadius this query_dv radius indices_dv distance2_dv).

Definition SearchHybrid_single {T : Type} `{EigenVector T}
    (this : KDTreeFlann) (query : T) (radius : float) (max_nn : Z)
    (indices : list Z) (distance2 : list float) : option SearchResult :=
  let query_dv := repeat query 1 in
  let indices_dv := [] in
  let distance2_dv := [] in
  unwrap indices distance2
         (SearchHybrid this query_dv radius max_nn indices_dv distance2_dv).

End Searches.

(** ** Concrete data used to exercise the statements *)

Module Sample.

Definition fone : float := S754_finite false 8388608 (-23).

(** The data set of the spec's scenario: (0,0,0), (1,0,0), (0,1,0). *)
Definition points3 : list Vector3f :=
  [ mkVector3f fzero fzero fzero;
    mkVector3f fone fzero fzero;
    mkVector3f fzero fone fzero ].

Definition origin3 : Vector3f := mkVector3f fzero fzero fzero.
Definition origin2 : Vector2f := mkVector2f fzero fzero.

(** An index built over [points3]. *)
Definition built3 : KDTreeFlann :=
  built_this (SetRawData KDTreeFlann_new points3).

(** A stand-in for the engine that finds no neighbour and writes
    nothing. *)
Definition null_engine : FlannEngine := {|
  SearchParams_default := mkSearchParams 32 fzero (-1) false;
  SearchParams_of c e := mkSearchParams c e (-1) false;
  knnSearch _ _ _ _ _ _ := mkAnswer [] [] 0;
  radiusSearch _ _ _ _ _ _ := mkAnswer [] [] 0
|}.

(** A batch of 42,949,673 copies of the origin. *)
Definition large_batch : list Vector3f :=
  repeat origin3 (Z.to_nat 42949673).

(** A batch of 21,474,837 copies of the origin. *)
Definition wrapping_batch : list Vector3f :=
  repeat origin3 (Z.to_nat 21474837).

End Sample.

(** ** Predicates used in the statements *)

(** The state in which the checks at the head of every search let a query
    batch through. *)
Definition passes_checks {T : Type} `{EigenVector T}
    (this : KDTreeFlann) (query : list T) : Prop :=
  data_ this <> [] /\ query <> [] /\ 0 < dataset_size_ this
  /\ to_size_t SizeAtCompileTime = dimension_ this.

(** What the searches test to decide that there is no index to search. *)
Definition index_unbuilt (this : KDTreeFlann) : Prop :=
  data_ this = [] \/ dataset_size_ this <= 0.

(** The representation invariant of the object: a non-empty data buffer
    comes with a dataset view of it and an index built over that view. *)
Definition well_formed (this : KDTreeFlann) : Prop :=
  data_ this <> [] ->
  exists dataset,
    mat_data dataset = data_ this
    /\ flann_dataset_ this = Some dataset
    /\ flann_index_ this = Some (mkIndex dataset true).

(** An engine whose searches return counts. *)
Definition counts_nonnegative (engine : FlannEngine) : Prop :=
  (forall index q i d knn p, 0 <= count (knnSearch index q i d knn p))
  /\ (forall index q i d r p, 0 <= count (radiusSearch index q i d r p)).

(** The objects a program can hold: a default-constructed one, and whatever
    [SetRawData] and [SetGeometry] leave behind, whether they succeed or
    not.  (The searches are [const].) *)
Inductive reachable : KDTreeFlann -> Prop :=
| reachable_new : reachable KDTreeFlann_new
| reachable_SetRawData (T : Type) (H : EigenVector T)
    (this : KDTreeFlann) (data : list T) :
    reachable this -> reachable (built_this (SetRawData this data))
| reachable_SetGeometry (TP TM : Type)
    (HP : EigenVector TP) (HM : EigenVector TM)
    (this : KDTreeFlann) (geometry : Geometry TP TM) :
    reachable this -> reachable (built_this (SetGeometry this geometry)).

(** * Properties *)

(** ** Integers, floats and vectors *)

Lemma to_size_t_small (z : Z) : 0 <= z < 2 ^ 64 -> to_size_t z = z.
Proof. intros Hz. unfold to_size_t. apply Z.mod_small. exact Hz. Qed.

Lemma to_size_t_range (z : Z) : 0 <= to_size_t z < 2 ^ 64.
Proof. unfold to_size_t. apply Z.mod_pos_bound. lia. Qed.

Lemma to_int_small (z : Z) : - 2 ^ 31 <= z < 2 ^ 31 -> to_int z = z.
Proof.
  intros Hz. unfold to_int.
  rewrite Z.mod_small by lia. lia.
Qed.

(** A [size_t] value from 2^31 up does not survive the passage through
    [int] and back (short of the top 2^31 values, which the sign extension
    restores). *)
Lemma total_size_wraps (p : Z) :
  2 ^ 31 <= p < 2 ^ 64 - 2 ^ 31 -> to_size_t (to_int (to_size_t p)) <> p.
Proof.
  intros Hp. unfold to_size_t, to_int.
  change (2 ^ 64) with 18446744073709551616 in *.
  change (2 ^ 31) with 2147483648 in *.
  change (2 ^ 32) with 4294967296 in *.
  Z.div_mod_to_equations. lia.
Qed.

(** Below 2^31 the passage through [int] changes nothing. *)
Lemma total_size_small (p : Z) :
  0 <= p < 2 ^ 31 -> to_int (to_size_t p) = p.
Proof.
  intros Hp. rewrite to_size_t_small by lia. apply to_int_small. lia.
Qed.

Lemma xorb_negb_negb (a b : bool) : xorb (negb a) (negb b) = xorb a b.
Proof. destruct a, b; reflexivity. Qed.

(** The product of two floats does not change when both change sign. *)
Lemma fmul_fneg_fneg (a b : float) : fmul (fneg a) (fneg b) = fmul a b.
Proof.
  unfold fmul, fneg.
  destruct a as [sa | sa | | sa ma ea], b as [sb | sb | | sb mb eb];
    cbn [SFopp SFmul]; rewrite ?xorb_negb_negb; reflexivity.
Qed.

Lemma empty_true_iff {A : Type} (v : list A) : empty v = true <-> v = [].
Proof. destruct v; cbn; split; congruence. Qed.

Lemma empty_false_iff {A : Type} (v : list A) : empty v = false <-> v <> [].
Proof. destruct v; cbn; split; congruence. Qed.

Lemma size_nonneg {A : Type} (v : list A) : 0 <= size v.
Proof. unfold size. lia. Qed.

Lemma size_zero_iff {A : Type} (v : list A) : size v = 0 <-> v = [].
Proof.
  unfold size. destruct v as [| a v]; cbn [length]; split; intros E;
    try reflexivity; try discriminate; lia.
Qed.

Lemma resize_length {A : Type} (n : Z) (dflt : A) (v : list A) :
  length (resize n dflt v) = Z.to_nat n.
Proof.
  unfold resize.
  rewrite length_app, length_firstn, repeat_length. lia.
Qed.

Lemma size_resize {A : Type} (n : Z) (dflt : A) (v : list A) :
  0 <= n -> size (resize n dflt v) = n.
Proof. intros Hn. unfold size. rewrite resize_length. lia. Qed.

Lemma write_back_length {A : Type} (out buf : list A) :
  length (write_back out buf) = length buf.
Proof.
  unfold write_back.
  rewrite length_firstn, length_app, length_skipn. lia.
Qed.

Lemma size_write_back {A : Type} (out buf : list A) :
  size (write_back out buf) = size buf.
Proof. unfold size. rewrite write_back_length. reflexivity. Qed.

(** Writing as many elements as the buffer holds replaces its content. *)
Lemma write_back_full {A : Type} (out buf : list A) :
  length out = length buf -> write_back out buf = out.
Proof.
  intros E. unfold write_back.
  rewrite skipn_all2 by lia.
  rewrite app_nil_r, <- E. apply firstn_all.
Qed.

Lemma transform_fresh {A B : Type} (f : A -> B) (src : list A) (dflt : B) :
  transform f src (repeat dflt (length src)) = map f src.
Proof.
  unfold transform. apply write_back_full.
  rewrite length_map, repeat_length. reflexivity.
Qed.

Lemma transform_resized {A B : Type} (f : A -> B) (src : list A) (dflt : B)
    (old : list B) :
  transform f src (resize (size src) dflt old) = map f src.
Proof.
  unfold transform. apply write_back_full.
  rewrite length_map, resize_length. unfold size. lia.
Qed.

(** ** Building *)

(** A successful build stores exactly the padded copy of the points. *)
Lemma SetRawData_success {T : Type} `{EigenVector T}
    (this : KDTreeFlann) (data : list T) :
  to_size_t SizeAtCompileTime <> 0 -> data <> [] ->
  let dataset :=
    mkMatrix (map convert_float4_functor data) (size data)
             (to_size_t SizeAtCompileTime) (Some 16) in
  SetRawData this data =
    mkBuildResult true
      (mkKDTreeFlann (map convert_float4_functor data) (Some dataset)
                     (Some (mkIndex dataset true))
                     (to_size_t SizeAtCompileTime) (size data))
      [BuildIndex dataset].
Proof.
  intros Hdim Hdata. unfold SetRawData. cbn [dimension_ dataset_size_ data_].
  destruct (to_size_t SizeAtCompileTime =? 0) eqn:Ed;
    [apply Z.eqb_eq in Ed; contradiction |].
  destruct (size data =? 0) eqn:Es;
    [apply Z.eqb_eq, size_zero_iff in Es; contradiction |].
  cbn [orb]. rewrite transform_resized. reflexivity.
Qed.

Lemma SetRawData_failure {T : Type} `{EigenVector T}
    (this : KDTreeFlann) (data : list T) :
  to_size_t SizeAtCompileTime = 0 \/ data = [] ->
  SetRawData this data =
    mkBuildResult false
      (mkKDTreeFlann (data_ this) (flann_dataset_ this) (flann_index_ this)
                     (to_size_t SizeAtCompileTime) (size data))
      [LogWarning SetRawData_warning].
Proof.
  intros Hc. unfold SetRawData. cbn [dimension_ dataset_size_ data_].
  destruct Hc as [Hd | Hd].
  - rewrite Hd. reflexivity.
  - subst data. cbn [size length Z.of_nat Z.eqb].
    rewrite orb_true_r. reflexivity.
Qed.

Lemma well_formed_new : well_formed KDTreeFlann_new.
Proof. intros Hne. cbn in Hne. congruence. Qed.

Lemma SetRawData_well_formed {T : Type} `{EigenVector T}
    (this : KDTreeFlann) (data : list T) :
  well_formed this -> well_formed (built_this (SetRawData this data)).
Proof.
  intros Hwf.
  destruct (Z.eq_dec (to_size_t SizeAtCompileTime) 0) as [Hd | Hd].
  - rewrite SetRawData_failure by (left; exact Hd). exact Hwf.
  - destruct data as [| x data].
    + rewrite SetRawData_failure by (right; reflexivity). exact Hwf.
    + rewrite SetRawData_success by (exact Hd || discriminate).
      intros _. eexists. cbn [built_this data_ flann_dataset_ flann_index_].
      split; [| split; reflexivity]. reflexivity.
Qed.

Lemma SetGeometry_well_formed {TP TM : Type} `{EigenVector TP} `{EigenVector TM}
    (this : KDTreeFlann) (geometry : Geometry TP TM) :
  well_formed this -> well_formed (built_this (SetGeometry this geometry)).
Proof.
  intros Hwf. destruct geometry; cbn [SetGeometry built_this];
    try exact Hwf; apply SetRawData_well_formed; exact Hwf.
Qed.

Lemma KDTreeFlann_of_well_formed {TP TM : Type}
    `{EigenVector TP} `{EigenVector TM} (data : Geometry TP TM) :
  well_formed (KDTreeFlann_of data).
Proof. apply SetGeometry_well_formed, well_formed_new. Qed.

(** The index of the spec's scenario. *)
Example built3_fields :
  dimension_ Sample.built3 = 3 /\ dataset_size_ Sample.built3 = 3
  /\ data_ Sample.built3 = map convert_float4_functor Sample.points3.
Proof. repeat split. Qed.

Example fmul_one_one : fmul Sample.fone Sample.fone = Sample.fone.
Proof. reflexivity. Qed.

(** C1 (as stated, refuted).  A build over an empty point set on the index
    built over the three sample points does fail, but the object is not left
    as it was: its dataset size drops from 3 to 0. *)
Lemma SetRawData_empty_modifies_state :
  ~ (built_ok (SetRawData Sample.built3 (@nil Vector3f)) = false
     /\ built_this (SetRawData Sample.built3 (@nil Vector3f)) = Sample.built3).
Proof.
  intros [_ E].
  apply (f_equal dataset_size_) in E.
  vm_compute in E. discriminate E.
Qed.

(** C1 (amended).  A build over an empty point set returns false and logs
    the warning; the padded data buffer, the dataset view and the engine
    index handle are the ones the object had, while [dimension_] is
    overwritten with the dimension of the point type and [dataset_size_]
    with 0. *)
Theorem SetRawData_empty {T : Type} `{EigenVector T} (this : KDTreeFlann) :
  let r := SetRawData this (@nil T) in
  built_ok r = false
  /\ data_ (built_this r) = data_ this
  /\ flann_dataset_ (built_this r) = flann_dataset_ this
  /\ flann_index_ (built_this r) = flann_index_ this
  /\ dimension_ (built_this r) = to_size_t SizeAtCompileTime
  /\ dataset_size_ (built_this r) = 0
  /\ built_events r = [LogWarning SetRawData_warning].
Proof.
  cbv zeta. rewrite SetRawData_failure by (right; reflexivity).
  cbn. repeat split.
Qed.

(** C8.  [SetGeometry] on a point cloud is [SetRawData] on its points, on a
    triangle mesh [SetRawData] on its vertices; on a geometry of any other
    kind it returns false, logs the unsupported-type warning, and leaves the
    object, with whatever index it holds, as it was. *)
Theorem SetGeometry_dispatch {TP TM : Type} `{EigenVector TP} `{EigenVector TM}
    (this : KDTreeFlann) (geometry : Geometry TP TM) :
  match GetGeometryType geometry with
  | PointCloud =>
      exists points_, geometry = APointCloud points_
        /\ SetGeometry this geometry = SetRawData this points_
  | TriangleMesh =>
      exists vertices_, geometry = ATriangleMesh vertices_
        /\ SetGeometry this geometry = SetRawData this vertices_
  | Image | Unspecified | OtherGeometryType _ =>
      SetGeometry this geometry =
        mkBuildResult false this [LogWarning SetGeometry_warning]
  end.
Proof.
  destruct geometry as [points_ | vertices_ | | | tag];
    cbn [GetGeometryType SetGeometry];
    try reflexivity; eexists; split; reflexivity.
Qed.

(** ** Searching *)

Section SearchProperties.

Context {engine : FlannEngine}.
Variable NUM_MAX_NN : Z.

Lemma stage_queries_eq {T : Type} `{EigenVector T}
    (this : KDTreeFlann) (query : list T) :
  stage_queries this query =
    mkMatrix (map convert_float4_functor query) (size query)
             (dimension_ this) (Some 16).
Proof. unfold stage_queries. rewrite transform_fresh. reflexivity. Qed.

(** The three tests shared by the searches. *)
Lemma common_checks_false {T : Type} (this : KDTreeFlann) (query : list T) :
  empty (data_ this) || empty query || (dataset_size_ this <=? 0) = false
  <-> data_ this <> [] /\ query <> [] /\ 0 < dataset_size_ this.
Proof.
  rewrite !orb_false_iff, !empty_false_iff, Z.leb_gt. tauto.
Qed.

Lemma common_checks_true {T : Type} (this : KDTreeFlann) (query : list T) :
  empty (data_ this) || empty query || (dataset_size_ this <=? 0) = true
  <-> index_unbuilt this \/ query = [].
Proof.
  unfold index_unbuilt.
  rewrite !orb_true_iff, !empty_true_iff, Z.leb_le. tauto.
Qed.

Lemma dimension_check_true {T : Type} `{EigenVector T} (this : KDTreeFlann) :
  negb (to_size_t SizeAtCompileTime =? dimension_ this) = true
  <-> to_size_t SizeAtCompileTime <> dimension_ this.
Proof. rewrite negb_true_iff, Z.eqb_neq. tauto. Qed.

Lemma dimension_check_false {T : Type} `{EigenVector T} (this : KDTreeFlann) :
  negb (to_size_t SizeAtCompileTime =? dimension_ this) = false
  <-> to_size_t SizeAtCompileTime = dimension_ this.
Proof. rewrite negb_false_iff, Z.eqb_eq. tauto. Qed.

(** *** Rejection *)

Lemma SearchKNN_rejects {T : Type} `{EigenVector T}
    (this : KDTreeFlann) (query : list T) (knn : Z)
    (indices : list Z) (distance2 : list float) :
  index_unbuilt this \/ query = [] \/ knn < 0 \/ NUM_MAX_NN < knn
  \/ to_size_t SizeAtCompileTime <> dimension_ this ->
  SearchKNN NUM_MAX_NN this query knn indices distance2 =
    Some (rejected indices distance2).
Proof.
  intros Hc. unfold SearchKNN.
  destruct (empty (data_ this) || empty query || (dataset_size_ this <=? 0))
    eqn:Ec; [reflexivity |].
  destruct (knn <? 0) eqn:Ek; [reflexivity |].
  destruct (knn >? NUM_MAX_NN) eqn:Em; [reflexivity |].
  cbn [orb].
  destruct (negb (to_size_t SizeAtCompileTime =? dimension_ this)) eqn:Ed;
    [reflexivity |].
  exfalso.
  apply common_checks_false in Ec. apply dimension_check_false in Ed.
  apply Z.ltb_ge in Ek. rewrite Z.gtb_ltb in Em. apply Z.ltb_ge in Em.
  unfold index_unbuilt in Hc. intuition lia.
Qed.

Lemma SearchRadius_rejects {T : Type} `{EigenVector T}
    (this : KDTreeFlann) (query : list T) (radius : float)
    (indices : list Z) (distance2 : list float) :
  index_unbuilt this \/ query = []
  \/ to_size_t SizeAtCompileTime <> dimension_ this ->
  SearchRadius NUM_MAX_NN this query radius indices distance2 =
    Some (rejected indices distance2).
Proof.
  intros Hc. unfold SearchRadius.
  destruct (empty (data_ this) || empty query || (dataset_size_ this <=? 0))
    eqn:Ec; [reflexivity |].
  destruct (negb (to_size_t SizeAtCompileTime =? dimension_ this)) eqn:Ed;
    [reflexivity |].
  exfalso.
  apply common_checks_false in Ec. apply dimension_check_false in Ed.
  unfold index_unbuilt in Hc. intuition lia.
Qed.

Lemma SearchHybrid_rejects {T : Type} `{EigenVector T}
    (this : KDTreeFlann) (query : list T) (radius : float) (max_nn : Z)
    (indices : list Z) (distance2 : list float) :
  index_unbuilt this \/ query = [] \/ max_nn < 0
  \/ to_size_t SizeAtCompileTime <> dimension_ this ->
  SearchHybrid this query radius max_nn indices distance2 =
    Some (rejected indices distance2).
Proof.
  intros Hc. unfold SearchHybrid.
  destruct (empty (data_ this) || empty query || (dataset_size_ this <=? 0))
    eqn:Ec; [reflexivity |].
  destruct (max_nn <? 0) eqn:Ek; [reflexivity |].
  cbn [orb].
  destruct (negb (to_size_t SizeAtCompileTime =? dimension_ this)) eqn:Ed;
    [reflexivity |].
  exfalso.
  apply common_checks_false in Ec. apply dimension_check_false in Ed.
  apply Z.ltb_ge in Ek.
  unfold index_unbuilt in Hc. intuition lia.
Qed.

(** *** Acceptance: what is staged, what the engine is given, what comes
    back *)

Lemma SearchKNN_accepts {T : Type} `{EigenVector T}
    (this : KDTreeFlann) (query : list T) (knn : Z)
    (indices : list Z) (distance2 : list float) (index : KDTreeCuda3dIndex) :
  passes_checks this query -> 0 <= knn <= NUM_MAX_NN ->
  0 <= to_int (to_size_t (size query * knn)) ->
  flann_index_ this = Some index ->
  let query_flann := stage_queries this query in
  let total_size := to_int (to_size_t (size query * knn)) in
  let indices1 := resize (to_size_t total_size) 0 indices in
  let distance21 := resize (to_size_t total_size) fzero distance2 in
  let indices_flann := mkMatrix indices1 (size query) knn None in
  let dists_flann := mkMatrix distance21 (size query) knn None in
  let param := set_matrices_in_gpu_ram true SearchParams_default in
  let a := knnSearch index query_flann indices_flann dists_flann knn param in
  SearchKNN NUM_MAX_NN this query knn indices distance2 =
    Some (mkSearchResult (count a)
            (write_back (out_indices a) indices1)
            (write_back (out_dists a) distance21)
            [KnnSearchCall index query_flann indices_flann dists_flann
                           knn param]).
Proof.
  intros (Hd & Hq & Hs & Hdim) [Hk0 Hk1] Hts Hidx. cbv zeta.
  unfold SearchKNN.
  replace (empty (data_ this) || empty query || (dataset_size_ this <=? 0))
    with false by (symmetry; apply common_checks_false; auto).
  replace (knn <? 0) with false by (symmetry; apply Z.ltb_ge; lia).
  replace (knn >? NUM_MAX_NN) with false
    by (symmetry; rewrite Z.gtb_ltb; apply Z.ltb_ge; lia).
  cbn [orb].
  replace (negb (to_size_t SizeAtCompileTime =? dimension_ this)) with false
    by (symmetry; apply dimension_check_false; exact Hdim).
  replace (to_int (to_size_t (size query * knn)) <? 0) with false
    by (symmetry; apply Z.ltb_ge; exact Hts).
  rewrite Hidx. reflexivity.
Qed.

(** A batch that passes the checks with a product Q * knn whose passage
    through [int] is negative does not come back: [resize] throws, before
    the index handle is used and before the engine is called. *)
Lemma SearchKNN_throws {T : Type} `{EigenVector T}
    (this : KDTreeFlann) (query : list T) (knn : Z)
    (indices : list Z) (distance2 : list float) :
  passes_checks this query -> 0 <= knn <= NUM_MAX_NN ->
  to_int (to_size_t (size query * knn)) < 0 ->
  SearchKNN NUM_MAX_NN this query knn indices distance2 = None.
Proof.
  intros (Hd & Hq & Hs & Hdim) [Hk0 Hk1] Hts. unfold SearchKNN.
  replace (empty (data_ this) || empty query || (dataset_size_ this <=? 0))
    with false by (symmetry; apply common_checks_false; auto).
  replace (knn <? 0) with false by (symmetry; apply Z.ltb_ge; lia).
  replace (knn >? NUM_MAX_NN) with false
    by (symmetry; rewrite Z.gtb_ltb; apply Z.ltb_ge; lia).
  cbn [orb].
  replace (negb (to_size_t SizeAtCompileTime =? dimension_ this)) with false
    by (symmetry; apply dimension_check_false; exact Hdim).
  replace (to_int (to_size_t (size query * knn)) <? 0) with true
    by (symmetry; apply Z.ltb_lt; exact Hts).
  reflexivity.
Qed.

Lemma SearchRadius_accepts {T : Type} `{EigenVector T}
    (this : KDTreeFlann) (query : list T) (radius : float)
    (indices : list Z) (distance2 : list float) (index : KDTreeCuda3dIndex) :
  passes_checks this query -> flann_index_ this = Some index ->
  let query_flann := stage_queries this query in
  let param :=
    set_matrices_in_gpu_ram true
      (set_max_neighbors NUM_MAX_NN (SearchParams_of (-1) fzero)) in
  let n := to_size_t (size query * NUM_MAX_NN) in
  let indices1 := resize n 0 indices in
  let distance21 := resize n fzero distance2 in
  let indices_flann := mkMatrix indices1 (size query) NUM_MAX_NN None in
  let dists_flann := mkMatrix distance21 (size query) NUM_MAX_NN None in
  let a := radiusSearch index query_flann indices_flann dists_flann
                        (fmul radius radius) param in
  SearchRadius NUM_MAX_NN this query radius indices distance2 =
    Some (mkSearchResult (count a)
            (write_back (out_indices a) indices1)
            (write_back (out_dists a) distance21)
            [RadiusSearchCall index query_flann indices_flann dists_flann
                              (fmul radius radius) param]).
Proof.
  intros (Hd & Hq & Hs & Hdim) Hidx. cbv zeta. unfold SearchRadius.
  replace (empty (data_ this) || empty query || (dataset_size_ this <=? 0))
    with false by (symmetry; apply common_checks_false; auto).
  replace (negb (to_size_t SizeAtCompileTime =? dimension_ this)) with false
    by (symmetry; apply dimension_check_false; exact Hdim).
  rewrite Hidx. reflexivity.
Qed.

Lemma SearchHybrid_accepts {T : Type} `{EigenVector T}
    (this : KDTreeFlann) (query : list T) (radius : float) (max_nn : Z)
    (indices : list Z) (distance2 : list float) (index : KDTreeCuda3dIndex) :
  passes_checks this query -> 0 <= max_nn ->
  flann_index_ this = Some index ->
  let query_flann := stage_queries this query in
  let param :=
    set_matrices_in_gpu_ram true
      (set_max_neighbors max_nn (SearchParams_of (-1) fzero)) in
  let n := to_size_t (size query * max_nn) in
  let indices1 := resize n 0 indices in
  let distance21 := resize n fzero distance2 in
  let indices_flann := mkMatrix indices1 (size query) max_nn None in
  let dists_flann := mkMatrix distance21 (size query) max_nn None in
  let a := radiusSearch index query_flann indices_flann dists_flann
                        (fmul radius radius) param in
  SearchHybrid this query radius max_nn indices distance2 =
    Some (mkSearchResult (count a)
            (write_back (out_indices a) indices1)
            (write_back (out_dists a) distance21)
            [RadiusSearchCall index query_flann indices_flann dists_flann
                              (fmul radius radius) param]).
Proof.
  intros (Hd & Hq & Hs & Hdim) Hk Hidx. cbv zeta. unfold SearchHybrid.
  replace (empty (data_ this) || empty query || (dataset_size_ this <=? 0))
    with false by (symmetry; apply common_checks_false; auto).
  replace (max_nn <? 0) with false by (symmetry; apply Z.ltb_ge; lia).
  cbn [orb].
  replace (negb (to_size_t SizeAtCompileTime =? dimension_ this)) with false
    by (symmetry; apply dimension_check_false; exact Hdim).
  rewrite Hidx. reflexivity.
Qed.

(** On a well-formed object the handle is there whenever the checks let
    the batch through. *)
Lemma passes_checks_index {T : Type} `{EigenVector T}
    (this : KDTreeFlann) (query : list T) :
  well_formed this -> passes_checks this query ->
  exists index, flann_index_ this = Some index.
Proof.
  intros Hwf (Hd & _). destruct (Hwf Hd) as (dataset & _ & _ & Hi).
  eexists. exact Hi.
Qed.

(** Either some check fails or all pass. *)
Lemma checks_decide {T : Type} `{EigenVector T}
    (this : KDTreeFlann) (query : list T) :
  passes_checks this query
  \/ (index_unbuilt this \/ query = []
      \/ to_size_t SizeAtCompileTime <> dimension_ this).
Proof.
  unfold passes_checks, index_unbuilt.
  destruct (data_ this) as [| p ps]; [tauto |].
  destruct query as [| q qs]; [tauto |].
  destruct (Z_lt_le_dec 0 (dataset_size_ this)); [| tauto].
  destruct (Z.eq_dec (to_size_t SizeAtCompileTime) (dimension_ this));
    [left | tauto].
  repeat split; try discriminate; assumption.
Qed.

End SearchProperties.

Section Contracts.

Context {engine : FlannEngine}.
Variable NUM_MAX_NN : Z.

(** C7.  [Search] on a KNN parameter is [SearchKNN] with the parameter's
    [knn_]; on a radius parameter [SearchRadius] with its [radius_]; on a
    hybrid parameter [SearchHybrid] with its [radius_] and [max_nn_]; on a
    parameter whose search type is none of the three it returns -1, the
    result vectors untouched and the engine not called. *)
Theorem Search_dispatch {T : Type} `{EigenVector T}
    (this : KDTreeFlann) (query : list T)
    (indices : list Z) (distance2 : list float) :
  (forall knn,
      Search NUM_MAX_NN this query (KDTreeSearchParamKNN knn)
             indices distance2
      = SearchKNN NUM_MAX_NN this query knn indices distance2)
  /\ (forall radius,
        Search NUM_MAX_NN this query (KDTreeSearchParamRadius radius)
               indices distance2
        = SearchRadius NUM_MAX_NN this query radius indices distance2)
  /\ (forall radius max_nn,
        Search NUM_MAX_NN this query (KDTreeSearchParamHybrid radius max_nn)
               indices distance2
        = SearchHybrid this query radius max_nn indices distance2)
  /\ (forall tag,
        Search NUM_MAX_NN this query (KDTreeSearchParamOther tag)
               indices distance2
        = Some (rejected indices distance2)).
Proof. repeat split. Qed.

(** C3.  When the dimension of the query point type differs from the
    dimension recorded in the object, [SearchKNN], [SearchRadius] and
    [SearchHybrid] each return -1, with the result vectors as they were and
    no call to the engine. *)
Theorem dimension_mismatch_rejected {T : Type} `{EigenVector T}
    (this : KDTreeFlann) (query : list T)
    (knn : Z) (radius : float) (max_nn : Z)
    (indices : list Z) (distance2 : list float) :
  to_size_t SizeAtCompileTime <> dimension_ this ->
  SearchKNN NUM_MAX_NN this query knn indices distance2
    = Some (mkSearchResult (-1) indices distance2 [])
  /\ SearchRadius NUM_MAX_NN this query radius indices distance2
     = Some (mkSearchResult (-1) indices distance2 [])
  /\ SearchHybrid this query radius max_nn indices distance2
     = Some (mkSearchResult (-1) indices distance2 []).
Proof.
  intros Hdim. fold (rejected indices distance2). repeat split.
  - apply SearchKNN_rejects. tauto.
  - apply SearchRadius_rejects. tauto.
  - apply SearchHybrid_rejects. tauto.
Qed.

(** After a build over an empty point set, nothing passes the first
    check. *)
Lemma index_unbuilt_after_empty_build {T : Type} `{EigenVector T}
    (this : KDTreeFlann) :
  index_unbuilt (built_this (SetRawData this (@nil T))).
Proof.
  right. rewrite SetRawData_failure by (right; reflexivity).
  cbn. lia.
Qed.

(** C4.  A build over an empty point set returns false, whatever the
    object held; on the object it leaves, every batch search and the
    dispatcher return -1 with the result vectors untouched and without a
    call through the index handle, and so does every single-query
    overload, which hands back empty result vectors. *)
Theorem search_after_empty_build {T Q : Type} `{EigenVector T} `{EigenVector Q}
    (this : KDTreeFlann) (query : list Q) (point : Q)
    (param : KDTreeSearchParam) (knn : Z) (radius : float) (max_nn : Z)
    (indices : list Z) (distance2 : list float) :
  let r := SetRawData this (@nil T) in
  let this' := built_this r in
  built_ok r = false
  /\ SearchKNN NUM_MAX_NN this' query knn indices distance2
     = Some (mkSearchResult (-1) indices distance2 [])
  /\ SearchRadius NUM_MAX_NN this' query radius indices distance2
     = Some (mkSearchResult (-1) indices distance2 [])
  /\ SearchHybrid this' query radius max_nn indices distance2
     = Some (mkSearchResult (-1) indices distance2 [])
  /\ Search NUM_MAX_NN this' query param indices distance2
     = Some (mkSearchResult (-1) indices distance2 [])
  /\ SearchKNN_single NUM_MAX_NN this' point knn indices distance2
     = Some (mkSearchResult (-1) [] [] [])
  /\ SearchRadius_single NUM_MAX_NN this' point radius indices distance2
     = Some (mkSearchResult (-1) [] [] [])
  /\ SearchHybrid_single this' point radius max_nn indices distance2
     = Some (mkSearchResult (-1) [] [] [])
  /\ Search_single NUM_MAX_NN this' point param indices distance2
     = Some (mkSearchResult (-1) [] [] []).
Proof.
  cbv zeta.
  pose proof (index_unbuilt_after_empty_build (T:=T) this) as Hu.
  set (this' := built_this (SetRawData this (@nil T))) in *.
  assert (Hk : forall (q : list Q) k i d,
             SearchKNN NUM_MAX_NN this' q k i d = Some (rejected i d))
    by (intros; apply SearchKNN_rejects; tauto).
  assert (Hr : forall (q : list Q) r i d,
             SearchRadius NUM_MAX_NN this' q r i d = Some (rejected i d))
    by (intros; apply SearchRadius_rejects; tauto).
  assert (Hh : forall (q : list Q) r m i d,
             SearchHybrid this' q r m i d = Some (rejected i d))
    by (intros; apply SearchHybrid_rejects; tauto).
  assert (Hs : forall (q : list Q) i d,
             Search NUM_MAX_NN this' q param i d = Some (rejected i d)).
  { intros q i d. unfold Search.
    destruct (GetSearchType param); auto. }
  fold (rejected indices distance2).
  unfold SearchKNN_single, SearchRadius_single, SearchHybrid_single,
    Search_single.
  rewrite !Hk, !Hr, !Hh, !Hs.
  repeat split.
  unfold this'. rewrite SetRawData_failure by (right; reflexivity).
  reflexivity.
Qed.

(** C9 (amended).  Each single-query overload gives the result code, the
    indices, the squared distances (and the engine calls) of the batch
    operation run on the one-element batch holding the point and on empty
    result vectors; what the caller's host vectors held is discarded. *)
Theorem single_query_overloads {T : Type} `{EigenVector T}
    (this : KDTreeFlann) (point : T) (param : KDTreeSearchParam)
    (knn : Z) (radius : float) (max_nn : Z)
    (indices : list Z) (distance2 : list float) :
  Search_single NUM_MAX_NN this point param indices distance2
    = Search NUM_MAX_NN this [point] param [] []
  /\ SearchKNN_single NUM_MAX_NN this point knn indices distance2
     = SearchKNN NUM_MAX_NN this [point] knn [] []
  /\ SearchRadius_single NUM_MAX_NN this point radius indices distance2
     = SearchRadius NUM_MAX_NN this [point] radius [] []
  /\ SearchHybrid_single this point radius max_nn indices distance2
     = SearchHybrid this [point] radius max_nn [] [].
Proof.
  assert (Hu : forall i d r, unwrap i d r = r).
  { intros i d [[c ixs dists evs] |]; reflexivity. }
  unfold Search_single, SearchKNN_single, SearchRadius_single,
    SearchHybrid_single.
  rewrite !Hu. cbn [repeat]. repeat split.
Qed.

(** C10.  [SearchRadius] with radius [-r] is [SearchRadius] with radius
    [r]: same result code, same result vectors, same call to the engine,
    which is given [r * r] in both cases. *)
Theorem SearchRadius_sign_insensitive {T : Type} `{EigenVector T}
    (this : KDTreeFlann) (query : list T) (radius : float)
    (indices : list Z) (distance2 : list float) :
  SearchRadius NUM_MAX_NN this query (fneg radius) indices distance2
  = SearchRadius NUM_MAX_NN this query radius indices distance2.
Proof.
  unfold SearchRadius. rewrite fmul_fneg_fneg. reflexivity.
Qed.

End Contracts.

Section Contracts_of_accepted_searches.

Context {engine : FlannEngine}.
Variable NUM_MAX_NN : Z.

(** C5.  When a batch of Q queries passes the checks of [SearchRadius] on
    a well-formed object, the engine's radius search is called once, on the
    built index, with the padded queries, the squared radius
    [radius * radius], the neighbour cap NUM_MAX_NN, and result views of Q
    rows and NUM_MAX_NN columns; the call returns the engine's count, and
    both result vectors come back resized to the [size_t] product
    Q * NUM_MAX_NN, which is Q * NUM_MAX_NN itself whenever that is a
    [size_t] value. *)
Theorem SearchRadius_success {T : Type} `{EigenVector T}
    (this : KDTreeFlann) (query : list T) (radius : float)
    (indices0 : list Z) (distance20 : list float) :
  well_formed this -> passes_checks this query ->
  exists r index queries indices_flann dists_flann param,
    SearchRadius NUM_MAX_NN this query radius indices0 distance20 = Some r
    /\ flann_index_ this = Some index
    /\ events r = [RadiusSearchCall index queries indices_flann dists_flann
                                    (fmul radius radius) param]
    /\ ret r = count (radiusSearch index queries indices_flann dists_flann
                                   (fmul radius radius) param)
    /\ mat_data queries = map convert_float4_functor query
    /\ rows queries = size query
    /\ max_neighbors param = NUM_MAX_NN
    /\ matrices_in_gpu_ram param = true
    /\ rows indices_flann = size query /\ cols indices_flann = NUM_MAX_NN
    /\ rows dists_flann = size query /\ cols dists_flann = NUM_MAX_NN
    /\ size (indices r) = to_size_t (size query * NUM_MAX_NN)
    /\ size (distance2 r) = to_size_t (size query * NUM_MAX_NN)
    /\ (0 <= size query * NUM_MAX_NN < 2 ^ 64 ->
        size (indices r) = size query * NUM_MAX_NN
        /\ size (distance2 r) = size query * NUM_MAX_NN).
Proof.
  intros Hwf Hp.
  destruct (passes_checks_index this query Hwf Hp) as [index Hi].
  pose proof (SearchRadius_accepts NUM_MAX_NN this query radius
                indices0 distance20 index Hp Hi) as E.
  cbv zeta in E. rewrite stage_queries_eq in E.
  do 6 eexists. split; [exact E |].
  split; [exact Hi |].
  cbn [events ret indices distance2].
  split; [reflexivity |].
  cbn [mat_data rows cols max_neighbors matrices_in_gpu_ram
       set_matrices_in_gpu_ram set_max_neighbors].
  rewrite !size_write_back, !size_resize by apply to_size_t_range.
  repeat split; try reflexivity; apply to_size_t_small; assumption.
Qed.

(** C6.  On a well-formed object, with an engine that returns counts,
    [SearchHybrid] returns -1 exactly when [max_nn] is negative, there is
    no index to search, the batch is empty, or the dimension of the query
    point type differs from the recorded one.  Otherwise the engine's
    radius search is called once with the squared radius
    [radius * radius], the neighbour cap [max_nn] and result views of
    [max_nn] columns, and both result vectors come back resized to the
    [size_t] product Q * max_nn, which is Q * max_nn itself whenever that
    is a [size_t] value. *)
Theorem SearchHybrid_contract {T : Type} `{EigenVector T}
    (this : KDTreeFlann) (query : list T) (radius : float) (max_nn : Z)
    (indices0 : list Z) (distance20 : list float) :
  well_formed this -> counts_nonnegative engine ->
  exists r,
    SearchHybrid this query radius max_nn indices0 distance20 = Some r
    /\ (ret r = -1 <->
        max_nn < 0 \/ index_unbuilt this \/ query = []
        \/ to_size_t SizeAtCompileTime <> dimension_ this)
    /\ (ret r <> -1 ->
        exists index queries indices_flann dists_flann param,
          flann_index_ this = Some index
          /\ events r = [RadiusSearchCall index queries indices_flann
                           dists_flann (fmul radius radius) param]
          /\ ret r = count (radiusSearch index queries indices_flann
                              dists_flann (fmul radius radius) param)
          /\ mat_data queries = map convert_float4_functor query
          /\ rows queries = size query
          /\ max_neighbors param = max_nn
          /\ matrices_in_gpu_ram param = true
          /\ rows indices_flann = size query /\ cols indices_flann = max_nn
          /\ rows dists_flann = size query /\ cols dists_flann = max_nn
          /\ size (indices r) = to_size_t (size query * max_nn)
          /\ size (distance2 r) = to_size_t (size query * max_nn)
          /\ (size query * max_nn < 2 ^ 64 ->
              size (indices r) = size query * max_nn
              /\ size (distance2 r) = size query * max_nn)).
Proof.
  intros Hwf [_ Hcount].
  destruct (Z_lt_le_dec max_nn 0) as [Hneg | Hpos].
  { eexists. split; [apply SearchHybrid_rejects; tauto |].
    cbn [rejected ret]. split; [tauto | congruence]. }
  destruct (checks_decide this query) as [Hp | Hrej].
  2:{ eexists. split; [apply SearchHybrid_rejects; tauto |].
      cbn [rejected ret]. split; [tauto | congruence]. }
  destruct (passes_checks_index this query Hwf Hp) as [index Hi].
  pose proof (SearchHybrid_accepts this query radius max_nn
                indices0 distance20 index Hp Hpos Hi) as E.
  cbv zeta in E. rewrite stage_queries_eq in E.
  eexists. split; [exact E |].
  cbn [events ret indices distance2].
  split.
  - split.
    + intros Hret.
      match type of Hret with count ?a = _ =>
        match a with radiusSearch ?i ?q ?x ?y ?r ?p =>
          pose proof (Hcount i q x y r p) end end.
      lia.
    + destruct Hp as (Hd & Hq & Hs & Hdim). unfold index_unbuilt.
      intros [? | [[? | ?] | [? | ?]]]; try contradiction; lia.
  - intros _. do 5 eexists. split; [exact Hi |].
    split; [reflexivity |].
    cbn [mat_data rows cols max_neighbors matrices_in_gpu_ram
         set_matrices_in_gpu_ram set_max_neighbors].
    rewrite !size_write_back, !size_resize by apply to_size_t_range.
    assert (Hnn : 0 <= size query * max_nn)
      by (pose proof (size_nonneg query); nia).
    repeat split; try reflexivity; apply to_size_t_small; lia.
Qed.

(** On a well-formed object no search goes through a null handle:
    [SearchRadius] and [SearchHybrid] return, and [SearchKNN] returns unless
    the product Q * knn is negative after its passage through [int], where
    [resize] throws. *)
Lemma searches_return {T : Type} `{EigenVector T}
    (this : KDTreeFlann) (query : list T)
    (knn : Z) (radius : float) (max_nn : Z)
    (indices0 : list Z) (distance20 : list float) :
  well_formed this ->
  (SearchKNN NUM_MAX_NN this query knn indices0 distance20 = None ->
   to_int (to_size_t (size query * knn)) < 0)
  /\ (exists r,
        SearchRadius NUM_MAX_NN this query radius indices0 distance20 = Some r)
  /\ (exists r,
        SearchHybrid this query radius max_nn indices0 distance20 = Some r).
Proof.
  intros Hwf.
  destruct (checks_decide this query) as [Hp | Hrej].
  - destruct (passes_checks_index this query Hwf Hp) as [index Hi].
    split; [| split].
    + destruct (Z_lt_le_dec knn 0);
        [| destruct (Z_lt_le_dec NUM_MAX_NN knn)].
      * rewrite SearchKNN_rejects by tauto. discriminate.
      * rewrite SearchKNN_rejects by tauto. discriminate.
      * destruct (Z_lt_le_dec (to_int (to_size_t (size query * knn))) 0)
          as [Hneg | Hpos]; [intros _; exact Hneg |].
        rewrite (SearchKNN_accepts NUM_MAX_NN this query knn
                   indices0 distance20 index Hp) by (lia || exact Hi).
        discriminate.
    + eexists. apply (SearchRadius_accepts NUM_MAX_NN this query radius
                        indices0 distance20 index Hp Hi).
    + destruct (Z_lt_le_dec max_nn 0).
      * eexists. apply SearchHybrid_rejects. tauto.
      * eexists. apply (SearchHybrid_accepts this query radius max_nn
                          indices0 distance20 index Hp); [lia | exact Hi].
  - split; [| split].
    + rewrite SearchKNN_rejects by tauto. discriminate.
    + eexists. apply SearchRadius_rejects. tauto.
    + eexists. apply SearchHybrid_rejects. tauto.
Qed.

(** The checks of [SearchKNN]: with an engine that returns counts, whenever
    the call returns, -1 comes back exactly when one of them fails. *)
Lemma SearchKNN_sentinel_iff {T : Type} `{EigenVector T}
    (this : KDTreeFlann) (query : list T) (knn : Z)
    (indices0 : list Z) (distance20 : list float) (r : SearchResult) :
  counts_nonnegative engine ->
  SearchKNN NUM_MAX_NN this query knn indices0 distance20 = Some r ->
  (ret r = -1 <->
   index_unbuilt this \/ query = [] \/ knn < 0 \/ NUM_MAX_NN < knn
   \/ to_size_t SizeAtCompileTime <> dimension_ this).
Proof.
  intros [Hcount _].
  destruct (Z_lt_le_dec knn 0) as [Hneg | Hpos].
  { rewrite SearchKNN_rejects by tauto. intros E. injection E as <-.
    cbn [rejected ret]. tauto. }
  destruct (Z_lt_le_dec NUM_MAX_NN knn) as [Hbig | Hle].
  { rewrite SearchKNN_rejects by tauto. intros E. injection E as <-.
    cbn [rejected ret]. tauto. }
  destruct (checks_decide this query) as [Hp | Hrej].
  2:{ rewrite SearchKNN_rejects by tauto. intros E. injection E as <-.
      cbn [rejected ret]. tauto. }
  destruct (Z_lt_le_dec (to_int (to_size_t (size query * knn))) 0)
    as [Hts | Hts].
  { rewrite SearchKNN_throws by (assumption || lia). discriminate. }
  pose proof Hp as (Hd & Hq & Hs & Hdim).
  unfold SearchKNN.
  replace (empty (data_ this) || empty query || (dataset_size_ this <=? 0))
    with false by (symmetry; apply common_checks_false; auto).
  replace (knn <? 0) with false by (symmetry; apply Z.ltb_ge; lia).
  replace (knn >? NUM_MAX_NN) with false
    by (symmetry; rewrite Z.gtb_ltb; apply Z.ltb_ge; lia).
  cbn [orb].
  replace (negb (to_size_t SizeAtCompileTime =? dimension_ this)) with false
    by (symmetry; apply dimension_check_false; exact Hdim).
  replace (to_int (to_size_t (size query * knn)) <? 0) with false
    by (symmetry; apply Z.ltb_ge; exact Hts).
  destruct (flann_index_ this) as [index |]; [| discriminate].
  intros E. injection E as <-. cbn [ret]. split.
  - intros Hret.
    match type of Hret with count ?a = _ =>
      match a with knnSearch ?i ?q ?x ?y ?k ?p =>
        pose proof (Hcount i q x y k p) end end.
    lia.
  - unfold index_unbuilt.
    intros [[? | ?] | [? | [? | [? | ?]]]]; try contradiction; lia.
Qed.

(** The size [SearchKNN] gives the result vectors: the product Q * knn
    after its passage through [int]. *)
Lemma SearchKNN_result_size {T : Type} `{EigenVector T}
    (this : KDTreeFlann) (query : list T) (knn : Z)
    (indices0 : list Z) (distance20 : list float) (index : KDTreeCuda3dIndex) :
  passes_checks this query -> 0 <= knn <= NUM_MAX_NN ->
  0 <= to_int (to_size_t (size query * knn)) ->
  flann_index_ this = Some index ->
  exists r,
    SearchKNN NUM_MAX_NN this query knn indices0 distance20 = Some r
    /\ size (indices r)
       = to_size_t (to_int (to_size_t (size query * knn)))
    /\ size (distance2 r)
       = to_size_t (to_int (to_size_t (size query * knn)))
    /\ exists queries indices_flann dists_flann param,
        events r = [KnnSearchCall index queries indices_flann dists_flann
                                  knn param]
        /\ rows indices_flann = size query /\ cols indices_flann = knn
        /\ ret r = count (knnSearch index queries indices_flann dists_flann
                                    knn param).
Proof.
  intros Hp Hk Hts Hi. eexists. split.
  - apply (SearchKNN_accepts NUM_MAX_NN this query knn indices0 distance20
             index Hp Hk Hts Hi).
  - cbn [events ret indices distance2].
    rewrite !size_write_back.
    rewrite !size_resize by apply to_size_t_range.
    split; [reflexivity |]. split; [reflexivity |].
    do 4 eexists. split; [reflexivity |]. repeat split.
Qed.

(** As long as Q * knn is below 2^31 that size is Q * knn. *)
Lemma SearchKNN_result_size_small {T : Type} (query : list T) (knn : Z) :
  0 <= knn -> size query * knn < 2 ^ 31 ->
  to_size_t (to_int (to_size_t (size query * knn))) = size query * knn.
Proof.
  intros Hk Hn. pose proof (size_nonneg query).
  assert (0 <= size query * knn) by nia.
  rewrite (to_size_t_small (size query * knn)) by lia.
  rewrite to_int_small by lia.
  apply to_size_t_small. lia.
Qed.

(** From 2^31 elements up it is not: where the product comes out of [int]
    non-negative the vectors are shorter than Q * knn (and where it comes
    out negative the call throws, [SearchKNN_throws]). *)
Lemma SearchKNN_result_size_wraps {T : Type} `{EigenVector T}
    (this : KDTreeFlann) (query : list T) (knn : Z)
    (indices0 : list Z) (distance20 : list float) (index : KDTreeCuda3dIndex) :
  passes_checks this query -> 0 <= knn <= NUM_MAX_NN ->
  flann_index_ this = Some index ->
  2 ^ 31 <= size query * knn < 2 ^ 64 ->
  0 <= to_int (to_size_t (size query * knn)) ->
  exists r,
    SearchKNN NUM_MAX_NN this query knn indices0 distance20 = Some r
    /\ size (indices r) < size query * knn
    /\ size (distance2 r) < size query * knn.
Proof.
  intros Hp Hk Hi Hn Hts.
  destruct (SearchKNN_result_size this query knn indices0 distance20 index
              Hp Hk Hts Hi) as (r & E & Si & Sd & _).
  exists r. rewrite Si, Sd.
  assert (Hlt : to_size_t (to_int (to_size_t (size query * knn)))
                < size query * knn).
  { assert (Hb : to_int (to_size_t (size query * knn)) < 2 ^ 31).
    { unfold to_int.
      pose proof (Z.mod_pos_bound (to_size_t (size query * knn) + 2 ^ 31)
                    (2 ^ 32) ltac:(lia)). lia. }
    rewrite to_size_t_small by lia. lia. }
  split; [exact E |]. split; exact Hlt.
Qed.

End Contracts_of_accepted_searches.

(** ** The statements at concrete inputs *)

Lemma size_large_batch : size Sample.large_batch = 42949673.
Proof.
  unfold size, Sample.large_batch. rewrite repeat_length.
  apply Z2Nat.id. lia.
Qed.

Lemma passes_checks_large_batch : passes_checks Sample.built3 Sample.large_batch.
Proof.
  unfold passes_checks. split; [| split; [| split]].
  - discriminate.
  - intros E. apply size_zero_iff in E.
    rewrite size_large_batch in E. discriminate E.
  - reflexivity.
  - reflexivity.
Qed.

Lemma total_size_large_batch :
  to_int (to_size_t (size Sample.large_batch * 100)) = 4.
Proof. rewrite size_large_batch. reflexivity. Qed.

(** C2 (the defect).  With NUM_MAX_NN = 100, [SearchKNN] with knn = 100 on
    a batch of 42,949,673 queries against the index built over the three
    sample points passes every check and calls the engine with result views
    of 42,949,673 rows and 100 columns, but the result vectors have been
    resized to 4 elements, not to 42,949,673 * 100 = 4,294,967,300: the
    product went through [int]. *)
Theorem SearchKNN_total_size_truncated :
  exists r index queries indices_flann dists_flann param,
    SearchKNN (engine := Sample.null_engine) 100
              Sample.built3 Sample.large_batch 100 [] [] = Some r
    /\ events r = [KnnSearchCall index queries indices_flann dists_flann
                                 100 param]
    /\ rows indices_flann = 42949673 /\ cols indices_flann = 100
    /\ size Sample.large_batch * 100 = 4294967300
    /\ size (indices r) = 4
    /\ size (distance2 r) = 4.
Proof.
  destruct (SearchKNN_result_size (engine := Sample.null_engine) 100
              Sample.built3 Sample.large_batch 100 [] []
              (mkIndex (mkMatrix (map convert_float4_functor Sample.points3)
                                 3 3 (Some 16)) true)
              passes_checks_large_batch ltac:(lia)
              ltac:(rewrite total_size_large_batch; lia) eq_refl)
    as (r & E & Hi & Hd & queries & indices_flann & dists_flann & param
        & Hev & Hrows & Hcols & _).
  rewrite size_large_batch in Hi, Hd, Hrows.
  rewrite size_large_batch.
  exists r. eexists. exists queries, indices_flann, dists_flann, param.
  split; [exact E |]. split; [exact Hev |].
  split; [exact Hrows |]. split; [exact Hcols |].
  split; [reflexivity |]. split; assumption.
Qed.

(** With NUM_MAX_NN = 100 and knn = 100, a batch of 21,474,837 queries has
    the product 2,147,483,700, which comes out of [int] negative: the call
    does not return. *)
Example SearchKNN_throws_at_wrapping_batch :
  SearchKNN (engine := Sample.null_engine) 100
            Sample.built3 Sample.wrapping_batch 100 [] [] = None.
Proof.
  assert (Hs : size Sample.wrapping_batch = 21474837).
  { unfold size, Sample.wrapping_batch. rewrite repeat_length.
    apply Z2Nat.id. lia. }
  apply SearchKNN_throws.
  - unfold passes_checks. split; [| split; [| split]].
    + discriminate.
    + intros E. apply size_zero_iff in E. rewrite Hs in E. discriminate E.
    + reflexivity.
    + reflexivity.
  - lia.
  - rewrite Hs. reflexivity.
Qed.

(** C9 (as stated, refuted).  On the index built over the three 3D sample
    points, queried with one 2D point and a caller whose result vectors hold
    one element each, the single-query [SearchKNN] and the batch [SearchKNN]
    on the one-element batch both return -1, but not the same vectors: the
    overload hands back empty ones, the batch form leaves the caller's as
    they were. *)
Lemma single_query_differs_on_callers_vectors :
  ~ (SearchKNN_single (engine := Sample.null_engine) 100
       Sample.built3 Sample.origin2 1 [5] [Sample.fone]
     = SearchKNN (engine := Sample.null_engine) 100
         Sample.built3 [Sample.origin2] 1 [5] [Sample.fone]).
Proof.
  intros E. vm_compute in E. discriminate E.
Qed.

(** C3 at a concrete input: the index built over the three 3D sample points,
    queried with one 2D point, NUM_MAX_NN = 100. *)
Lemma dimension_mismatch_rejected_witness :
  to_size_t (SizeAtCompileTime (T := Vector2f)) <> dimension_ Sample.built3
  /\ SearchKNN (engine := Sample.null_engine) 100
               Sample.built3 [Sample.origin2] 1 [] []
     = Some (mkSearchResult (-1) [] [] [])
  /\ SearchRadius (engine := Sample.null_engine) 100
                  Sample.built3 [Sample.origin2] Sample.fone [] []
     = Some (mkSearchResult (-1) [] [] [])
  /\ SearchHybrid (engine := Sample.null_engine)
                  Sample.built3 [Sample.origin2] Sample.fone 1 [] []
     = Some (mkSearchResult (-1) [] [] []).
Proof.
  assert (Hdim : to_size_t (SizeAtCompileTime (T := Vector2f))
                 <> dimension_ Sample.built3)
    by (vm_compute; discriminate).
  split; [exact Hdim |].
  apply (dimension_mismatch_rejected (engine := Sample.null_engine) 100
           Sample.built3 [Sample.origin2] 1 Sample.fone 1 [] [] Hdim).
Defined.

(** C5 at a concrete input: one query at the origin, radius 1, against the
    index built over the three sample points, NUM_MAX_NN = 100. *)
Lemma SearchRadius_success_witness :
  well_formed Sample.built3
  /\ passes_checks Sample.built3 [Sample.origin3]
  /\ exists r index queries indices_flann dists_flann param,
      SearchRadius (engine := Sample.null_engine) 100
                   Sample.built3 [Sample.origin3] Sample.fone [] [] = Some r
      /\ flann_index_ Sample.built3 = Some index
      /\ events r = [RadiusSearchCall index queries indices_flann dists_flann
                                      (fmul Sample.fone Sample.fone) param]
      /\ ret r = count (radiusSearch (FlannEngine := Sample.null_engine)
                          index queries indices_flann dists_flann
                          (fmul Sample.fone Sample.fone) param)
      /\ mat_data queries = map convert_float4_functor [Sample.origin3]
      /\ rows queries = size [Sample.origin3]
      /\ max_neighbors param = 100
      /\ matrices_in_gpu_ram param = true
      /\ rows indices_flann = size [Sample.origin3]
      /\ cols indices_flann = 100
      /\ rows dists_flann = size [Sample.origin3]
      /\ cols dists_flann = 100
      /\ size (indices r) = to_size_t (size [Sample.origin3] * 100)
      /\ size (distance2 r) = to_size_t (size [Sample.origin3] * 100)
      /\ (0 <= size [Sample.origin3] * 100 < 2 ^ 64 ->
          size (indices r) = size [Sample.origin3] * 100
          /\ size (distance2 r) = size [Sample.origin3] * 100).
Proof.
  assert (Hwf : well_formed Sample.built3).
  { intros _. eexists. vm_compute. split; [| split; reflexivity].
    reflexivity. }
  assert (Hp : passes_checks Sample.built3 [Sample.origin3]).
  { unfold passes_checks.
    split; [discriminate | split; [discriminate | split; reflexivity]]. }
  split; [exact Hwf |]. split; [exact Hp |].
  apply (SearchRadius_success (engine := Sample.null_engine) 100
           Sample.built3 [Sample.origin3] Sample.fone [] [] Hwf Hp).
Defined.

(** C6 at a concrete input: one query at the origin, radius 1, at most 2
    neighbours, against the index built over the three sample points. *)
Lemma SearchHybrid_contract_witness :
  well_formed Sample.built3
  /\ counts_nonnegative Sample.null_engine
  /\ exists r,
      SearchHybrid (engine := Sample.null_engine)
                   Sample.built3 [Sample.origin3] Sample.fone 2 [] [] = Some r
      /\ (ret r = -1 <->
          2 < 0 \/ index_unbuilt Sample.built3 \/ [Sample.origin3] = []
          \/ to_size_t (SizeAtCompileTime (T := Vector3f))
             <> dimension_ Sample.built3)
      /\ (ret r <> -1 ->
          exists index queries indices_flann dists_flann param,
            flann_index_ Sample.built3 = Some index
            /\ events r = [RadiusSearchCall index queries indices_flann
                             dists_flann (fmul Sample.fone Sample.fone) param]
            /\ ret r = count (radiusSearch (FlannEngine := Sample.null_engine)
                                index queries indices_flann dists_flann
                                (fmul Sample.fone Sample.fone) param)
            /\ mat_data queries = map convert_float4_functor [Sample.origin3]
            /\ rows queries = size [Sample.origin3]
            /\ max_neighbors param = 2
            /\ matrices_in_gpu_ram param = true
            /\ rows indices_flann = size [Sample.origin3]
            /\ cols indices_flann = 2
            /\ rows dists_flann = size [Sample.origin3]
            /\ cols dists_flann = 2
            /\ size (indices r) = to_size_t (size [Sample.origin3] * 2)
            /\ size (distance2 r) = to_size_t (size [Sample.origin3] * 2)
            /\ (size [Sample.origin3] * 2 < 2 ^ 64 ->
                size (indices r) = size [Sample.origin3] * 2
                /\ size (distance2 r) = size [Sample.origin3] * 2)).
Proof.
  assert (Hwf : well_formed Sample.built3).
  { intros _. eexists. vm_compute. split; [| split; reflexivity].
    reflexivity. }
  assert (Hc : counts_nonnegative Sample.null_engine).
  { split; intros; vm_compute; discriminate. }
  split; [exact Hwf |]. split; [exact Hc |].
  apply (SearchHybrid_contract (engine := Sample.null_engine)
           Sample.built3 [Sample.origin3] Sample.fone 2 [] [] Hwf Hc).
Defined.

(** The searches run on the index of the spec's scenario, against the
    stand-in engine. *)
Example SearchKNN_at_origin :
  SearchKNN (engine := Sample.null_engine) 100
            Sample.built3 [Sample.origin3] 2 [7; 8; 9] []
  = Some (mkSearchResult 0 [7; 8] [fzero; fzero]
            [KnnSearchCall
               (mkIndex (mkMatrix (data_ Sample.built3) 3 3 (Some 16)) true)
               (mkMatrix [float4_zero] 1 3 (Some 16))
               (mkMatrix [7; 8] 1 2 None)
               (mkMatrix [fzero; fzero] 1 2 None)
               2 (mkSearchParams 32 fzero (-1) true)]).
Proof. reflexivity. Qed.

Example SearchHybrid_at_origin :
  SearchHybrid (engine := Sample.null_engine)
               Sample.built3 [Sample.origin3] Sample.fone 2 [] []
  = Some (mkSearchResult 0 [0; 0] [fzero; fzero]
            [RadiusSearchCall
               (mkIndex (mkMatrix (data_ Sample.built3) 3 3 (Some 16)) true)
               (mkMatrix [float4_zero] 1 3 (Some 16))
               (mkMatrix [0; 0] 1 2 None)
               (mkMatrix [fzero; fzero] 1 2 None)
               Sample.fone (mkSearchParams (-1) fzero 2 true)]).
Proof. reflexivity. Qed.

Example SearchRadius_unbuilt :
  SearchRadius (engine := Sample.null_engine) 100
               KDTreeFlann_new [Sample.origin3] Sample.fone [5] [Sample.fone]
  = Some (mkSearchResult (-1) [5] [Sample.fone] []).
Proof. reflexivity. Qed.

Example Search_single_mismatch :
  Search_single (engine := Sample.null_engine) 100
                Sample.built3 Sample.origin2 (KDTreeSearchParamKNN 1)
                [5] [Sample.fone]
  = Some (mkSearchResult (-1) [] [] []).
Proof. reflexivity. Qed.

(** * Further properties of the code *)

(** ** Building *)

(** X1.  A build over a non-empty point set (of a point type of non-zero
    dimension) succeeds and replaces the index wholesale: the data buffer is
    exactly the padded copy of the points, the recorded size and dimension
    are those of the call, the dataset view and the index are new ones over
    that buffer, and nothing of this depends on what the object held
    before. *)
Theorem build_replaces_index {T : Type} `{EigenVector T}
    (this : KDTreeFlann) (data : list T) :
  to_size_t SizeAtCompileTime <> 0 -> data <> [] ->
  let r := SetRawData this data in
  let dataset :=
    mkMatrix (map convert_float4_functor data) (size data)
             (to_size_t SizeAtCompileTime) (Some 16) in
  built_ok r = true
  /\ data_ (built_this r) = map convert_float4_functor data
  /\ dataset_size_ (built_this r) = size data
  /\ dimension_ (built_this r) = to_size_t SizeAtCompileTime
  /\ flann_dataset_ (built_this r) = Some dataset
  /\ flann_index_ (built_this r) = Some (mkIndex dataset true)
  /\ built_events r = [BuildIndex dataset]
  /\ forall other : KDTreeFlann, SetRawData other data = r.
Proof.
  intros Hdim Hdata. cbv zeta.
  rewrite (SetRawData_success this data Hdim Hdata).
  cbn [built_ok built_this built_events data_ dataset_size_ dimension_
       flann_dataset_ flann_index_].
  repeat split. intros other.
  apply (SetRawData_success other data Hdim Hdata).
Qed.

Lemma build_replaces_index_witness :
  to_size_t (SizeAtCompileTime (T := Vector2f)) <> 0
  /\ [Sample.origin2] <> []
  /\ let r := SetRawData Sample.built3 [Sample.origin2] in
     let dataset :=
       mkMatrix (map convert_float4_functor [Sample.origin2])
                (size [Sample.origin2])
                (to_size_t (SizeAtCompileTime (T := Vector2f))) (Some 16) in
     built_ok r = true
     /\ data_ (built_this r) = map convert_float4_functor [Sample.origin2]
     /\ dataset_size_ (built_this r) = size [Sample.origin2]
     /\ dimension_ (built_this r)
        = to_size_t (SizeAtCompileTime (T := Vector2f))
     /\ flann_dataset_ (built_this r) = Some dataset
     /\ flann_index_ (built_this r) = Some (mkIndex dataset true)
     /\ built_events r = [BuildIndex dataset]
     /\ forall other : KDTreeFlann,
          SetRawData other [Sample.origin2] = r.
Proof.
  assert (Hdim : to_size_t (SizeAtCompileTime (T := Vector2f)) <> 0)
    by (vm_compute; discriminate).
  assert (Hdata : [Sample.origin2] <> []) by discriminate.
  split; [exact Hdim |]. split; [exact Hdata |].
  apply (build_replaces_index Sample.built3 [Sample.origin2] Hdim Hdata).
Defined.

(** X2.  [SetRawData] fails exactly when the point set is empty or the point
    type has dimension zero; it logs the warning exactly then, and starts an
    index build exactly otherwise. *)
Theorem SetRawData_fails_iff {T : Type} `{EigenVector T}
    (this : KDTreeFlann) (data : list T) :
  (built_ok (SetRawData this data) = false
   <-> to_size_t SizeAtCompileTime = 0 \/ data = [])
  /\ (built_events (SetRawData this data) = [LogWarning SetRawData_warning]
      <-> to_size_t SizeAtCompileTime = 0 \/ data = [])
  /\ ((exists dataset, built_events (SetRawData this data) = [BuildIndex dataset])
      <-> to_size_t SizeAtCompileTime <> 0 /\ data <> []).
Proof.
  assert (Hfail : to_size_t SizeAtCompileTime = 0 \/ data = [] ->
                  SetRawData this data
                  = mkBuildResult false
                      (mkKDTreeFlann (data_ this) (flann_dataset_ this)
                         (flann_index_ this)
                         (to_size_t SizeAtCompileTime) (size data))
                      [LogWarning SetRawData_warning])
    by apply SetRawData_failure.
  destruct (Z.eq_dec (to_size_t SizeAtCompileTime) 0) as [Hd | Hd];
    [| destruct data as [| x data]].
  1, 2: rewrite Hfail by tauto; cbn [built_ok built_events];
    (split; [tauto |]); (split; [tauto |]); split;
    [intros [dataset E]; discriminate E | intros [H1 H2]; congruence].
  rewrite SetRawData_success by (exact Hd || discriminate).
  cbn [built_ok built_events].
  split; [| split].
  - split; [discriminate |]. intros [? | ?]; [contradiction | discriminate].
  - split; [discriminate |]. intros [? | ?]; [contradiction | discriminate].
  - split; [intros _; split; [exact Hd | discriminate] |].
    intros _. eexists. reflexivity.
Qed.

Lemma convert_float4_3_injective (x y : Vector3f) :
  convert_float4_functor x = convert_float4_functor y -> x = y.
Proof.
  destruct x, y. cbn. intros E. injection E as -> -> ->. reflexivity.
Qed.

Lemma convert_float4_2_injective (x y : Vector2f) :
  convert_float4_functor x = convert_float4_functor y -> x = y.
Proof.
  destruct x, y. cbn. intros E. injection E as -> ->. reflexivity.
Qed.

Lemma padded_copy_injective {A B : Type} (f : A -> B)
    (Hf : forall x y, f x = f y -> x = y) (l : list A) :
  forall l', map f l = map f l' -> l = l'.
Proof.
  induction l as [| a l IH]; intros l' E; destruct l' as [| a' l'];
    cbn [map] in E; [reflexivity | discriminate | discriminate |].
  inversion E as [[Ea El]].
  rewrite (Hf _ _ Ea), (IH _ El). reflexivity.
Qed.

(** X3.  The padded layout loses nothing: two non-empty 3D point sets that
    leave the same data buffer in the object are the same point set, and so
    for 2D point sets. *)
Theorem padded_buffer_determines_points
    (this this' : KDTreeFlann) :
  (forall data data' : list Vector3f,
      data <> [] -> data' <> [] ->
      data_ (built_this (SetRawData this data))
      = data_ (built_this (SetRawData this' data')) ->
      data = data')
  /\ (forall data data' : list Vector2f,
        data <> [] -> data' <> [] ->
        data_ (built_this (SetRawData this data))
        = data_ (built_this (SetRawData this' data')) ->
        data = data').
Proof.
  split; intros data data' Hd Hd'.
  - rewrite !SetRawData_success
      by (assumption || (vm_compute; discriminate)).
    cbn [built_this data_].
    apply padded_copy_injective. exact convert_float4_3_injective.
  - rewrite !SetRawData_success
      by (assumption || (vm_compute; discriminate)).
    cbn [built_this data_].
    apply padded_copy_injective. exact convert_float4_2_injective.
Qed.

(** X4.  The unused components of the stored points are zero: after a
    successful build from 3D points every element of the data buffer has a
    zero fourth component, and after one from 2D points zero third and
    fourth components. *)
Theorem build_pads_with_zeros (this : KDTreeFlann) :
  (forall data : list Vector3f,
      data <> [] ->
      Forall (fun p => f4w p = fzero)
             (data_ (built_this (SetRawData this data))))
  /\ (forall data : list Vector2f,
        data <> [] ->
        Forall (fun p => f4z p = fzero /\ f4w p = fzero)
               (data_ (built_this (SetRawData this data)))).
Proof.
  split; intros data Hd;
    rewrite SetRawData_success by (assumption || (vm_compute; discriminate));
    cbn [built_this data_]; apply Forall_forall; intros p Hin;
    apply in_map_iff in Hin; destruct Hin as (x & <- & _); cbn; auto.
Qed.

(** X5.  No sequence of builds, failed or not, leaves an object on which a
    search would go through a null index handle.  On every reachable object
    [SearchRadius], [SearchHybrid] and their single-query overloads return;
    [SearchKNN], the dispatcher and their single-query overloads fail to
    return only where the product Q * knn comes out of [int] negative, that
    is where [resize] throws, before the handle is used. *)
Theorem reachable_no_null_handle {engine : FlannEngine} (NUM_MAX_NN : Z)
    {T : Type} `{EigenVector T}
    (this : KDTreeFlann) (query : list T) (point : T)
    (param : KDTreeSearchParam) (knn : Z) (radius : float) (max_nn : Z)
    (indices0 : list Z) (distance20 : list float) :
  reachable this ->
  (SearchKNN NUM_MAX_NN this query knn indices0 distance20 = None ->
   to_int (to_size_t (size query * knn)) < 0)
  /\ SearchRadius NUM_MAX_NN this query radius indices0 distance20 <> None
  /\ SearchHybrid this query radius max_nn indices0 distance20 <> None
  /\ (Search NUM_MAX_NN this query param indices0 distance20 = None ->
      to_int (to_size_t (size query * knn_ param)) < 0)
  /\ (SearchKNN_single NUM_MAX_NN this point knn indices0 distance20 = None ->
      to_int (to_size_t (size [point] * knn)) < 0)
  /\ SearchRadius_single NUM_MAX_NN this point radius indices0 distance20
     <> None
  /\ SearchHybrid_single this point radius max_nn indices0 distance20
     <> None
  /\ (Search_single NUM_MAX_NN this point param indices0 distance20 = None ->
      to_int (to_size_t (size [point] * knn_ param)) < 0).
Proof.
  intros Hr.
  assert (Hwf : well_formed this).
  { induction Hr.
    - exact well_formed_new.
    - apply SetRawData_well_formed. assumption.
    - apply SetGeometry_well_formed. assumption. }
  assert (Hall : forall (q : list T) k r m i d,
             (SearchKNN NUM_MAX_NN this q k i d = None ->
              to_int (to_size_t (size q * k)) < 0)
             /\ SearchRadius NUM_MAX_NN this q r i d <> None
             /\ SearchHybrid this q r m i d <> None).
  { intros q k r m i d.
    destruct (searches_return NUM_MAX_NN this q k r m i d Hwf)
      as (Hk & (r2 & E2) & (r3 & E3)).
    rewrite E2, E3. repeat split; (exact Hk || discriminate). }
  assert (Hs : forall (q : list T) i d,
             Search NUM_MAX_NN this q param i d = None ->
             to_int (to_size_t (size q * knn_ param)) < 0).
  { intros q i d. unfold Search.
    destruct (GetSearchType param); intros E.
    - revert E. apply (Hall q (knn_ param) fzero 0 i d).
    - exfalso. revert E. apply (Hall q 0 (radius_ param) 0 i d).
    - exfalso. revert E.
      apply (Hall q 0 (radius_ param) (max_nn_ param) i d).
    - discriminate E. }
  assert (Hu : forall i d r, unwrap i d r = None -> r = None).
  { intros i d [r |] E; [discriminate E | reflexivity]. }
  unfold SearchKNN_single, SearchRadius_single, SearchHybrid_single,
    Search_single. cbn [repeat].
  split; [apply (Hall query knn radius max_nn) |].
  split; [apply (Hall query knn radius max_nn) |].
  split; [apply (Hall query knn radius max_nn) |].
  split; [apply Hs |].
  split; [intros E; apply Hu in E; revert E;
          apply (Hall [point] knn radius max_nn) |].
  split; [intros E; apply Hu in E; revert E;
          apply (Hall [point] knn radius max_nn) |].
  split; [intros E; apply Hu in E; revert E;
          apply (Hall [point] knn radius max_nn) |].
  intros E. apply Hu in E. revert E. apply Hs.
Qed.

(** X5 on the index built over the three sample points. *)
Lemma reachable_no_null_handle_witness :
  reachable Sample.built3
  /\ (SearchKNN (engine := Sample.null_engine) 100
                Sample.built3 [Sample.origin3] 1 [] [] = None ->
      to_int (to_size_t (size [Sample.origin3] * 1)) < 0)
  /\ SearchRadius (engine := Sample.null_engine) 100
                  Sample.built3 [Sample.origin3] Sample.fone [] [] <> None
  /\ SearchHybrid (engine := Sample.null_engine)
                  Sample.built3 [Sample.origin3] Sample.fone 1 [] [] <> None
  /\ (Search (engine := Sample.null_engine) 100
             Sample.built3 [Sample.origin3] (KDTreeSearchParamKNN 1) [] []
      = None ->
      to_int (to_size_t (size [Sample.origin3]
                         * knn_ (KDTreeSearchParamKNN 1))) < 0)
  /\ (SearchKNN_single (engine := Sample.null_engine) 100
                       Sample.built3 Sample.origin3 1 [] [] = None ->
      to_int (to_size_t (size [Sample.origin3] * 1)) < 0)
  /\ SearchRadius_single (engine := Sample.null_engine) 100
                         Sample.built3 Sample.origin3 Sample.fone [] []
     <> None
  /\ SearchHybrid_single (engine := Sample.null_engine)
                         Sample.built3 Sample.origin3 Sample.fone 1 [] []
     <> None
  /\ (Search_single (engine := Sample.null_engine) 100
                    Sample.built3 Sample.origin3 (KDTreeSearchParamKNN 1)
                    [] [] = None ->
      to_int (to_size_t (size [Sample.origin3]
                         * knn_ (KDTreeSearchParamKNN 1))) < 0).
Proof.
  assert (Hr : reachable Sample.built3).
  { unfold Sample.built3. apply reachable_SetRawData, reachable_new. }
  split; [exact Hr |].
  apply (reachable_no_null_handle (engine := Sample.null_engine) 100
           Sample.built3 [Sample.origin3] Sample.origin3
           (KDTreeSearchParamKNN 1) 1 Sample.fone 1 [] [] Hr).
Defined.

(** ** Searching *)

Section Further_search_properties.

Context {engine : FlannEngine}.
Variable NUM_MAX_NN : Z.

(** X6.  What a search does besides returning: it calls the engine at most
    once, logs nothing and builds nothing; and when it makes no call it has
    returned -1 and left the caller's result vectors as they were. *)
Theorem search_effects {T : Type} `{EigenVector T}
    (this : KDTreeFlann) (query : list T)
    (knn : Z) (radius : float) (max_nn : Z)
    (indices0 : list Z) (distance20 : list float) (r : SearchResult) :
  SearchKNN NUM_MAX_NN this query knn indices0 distance20 = Some r
  \/ SearchRadius NUM_MAX_NN this query radius indices0 distance20 = Some r
  \/ SearchHybrid this query radius max_nn indices0 distance20 = Some r ->
  (length (events r) <= 1)%nat
  /\ forallb is_search_call (events r) = true
  /\ (events r = [] -> r = mkSearchResult (-1) indices0 distance20 []).
Proof.
  assert (Hrej : forall r0, Some (rejected indices0 distance20) = Some r0 ->
            (length (events r0) <= 1)%nat
            /\ forallb is_search_call (events r0) = true
            /\ (events r0 = [] -> r0 = mkSearchResult (-1) indices0 distance20 [])).
  { intros r0 E. injection E as <-. cbn. repeat split; lia. }
  intros [E | [E | E]]; revert E;
    [unfold SearchKNN | unfold SearchRadius | unfold SearchHybrid];
    repeat match goal with
           | |- context [if ?c then _ else _] =>
               destruct c; [first [apply Hrej | discriminate] |]
           end;
    destruct (flann_index_ this); try discriminate;
    intros E; injection E as <-; cbn;
    (split; [lia | split; [reflexivity | discriminate]]).
Qed.

(** X7.  The contract of [SearchKNN] while Q * knn stays below 2^31, on a
    well-formed object and with an engine that returns counts: -1 comes
    back exactly when there is no index to search, the batch is empty, [knn]
    is negative or above NUM_MAX_NN, or the dimensions differ; otherwise the
    engine's k-nearest search is called once on the padded queries with
    result views of Q rows and [knn] columns, its count is returned, and
    both result vectors come back with Q * knn elements. *)
Theorem SearchKNN_contract {T : Type} `{EigenVector T}
    (this : KDTreeFlann) (query : list T) (knn : Z)
    (indices0 : list Z) (distance20 : list float) :
  well_formed this -> counts_nonnegative engine ->
  size query * knn < 2 ^ 31 ->
  exists r,
    SearchKNN NUM_MAX_NN this query knn indices0 distance20 = Some r
    /\ (ret r = -1 <->
        index_unbuilt this \/ query = [] \/ knn < 0 \/ NUM_MAX_NN < knn
        \/ to_size_t SizeAtCompileTime <> dimension_ this)
    /\ (ret r <> -1 ->
        exists index queries indices_flann dists_flann param,
          flann_index_ this = Some index
          /\ events r = [KnnSearchCall index queries indices_flann
                           dists_flann knn param]
          /\ ret r = count (knnSearch index queries indices_flann
                              dists_flann knn param)
          /\ mat_data queries = map convert_float4_functor query
          /\ rows queries = size query
          /\ matrices_in_gpu_ram param = true
          /\ rows indices_flann = size query /\ cols indices_flann = knn
          /\ rows dists_flann = size query /\ cols dists_flann = knn
          /\ size (indices r) = size query * knn
          /\ size (distance2 r) = size query * knn).
Proof.
  intros Hwf [Hcount _] Hn.
  destruct (Z_lt_le_dec knn 0) as [Hneg | Hpos].
  { eexists. split; [apply SearchKNN_rejects; tauto |].
    cbn [rejected ret]. split; [tauto | congruence]. }
  destruct (Z_lt_le_dec NUM_MAX_NN knn) as [Hbig | Hle].
  { eexists. split; [apply SearchKNN_rejects; tauto |].
    cbn [rejected ret]. split; [tauto | congruence]. }
  destruct (checks_decide this query) as [Hp | Hrej].
  2:{ eexists. split; [apply SearchKNN_rejects; tauto |].
      cbn [rejected ret]. split; [tauto | congruence]. }
  destruct (passes_checks_index this query Hwf Hp) as [index Hi].
  assert (Hts : to_int (to_size_t (size query * knn)) = size query * knn).
  { apply total_size_small. pose proof (size_nonneg query). nia. }
  pose proof (SearchKNN_accepts NUM_MAX_NN this query knn
                indices0 distance20 index Hp (conj Hpos Hle)
                ltac:(rewrite Hts; pose proof (size_nonneg query); nia) Hi)
    as E.
  cbv zeta in E. rewrite stage_queries_eq in E.
  assert (Hsz : to_size_t (to_int (to_size_t (size query * knn)))
                = size query * knn)
    by (apply SearchKNN_result_size_small; assumption).
  rewrite Hsz in E.
  eexists. split; [exact E |].
  cbn [events ret indices distance2].
  split.
  - split.
    + intros Hret.
      match type of Hret with count ?a = _ =>
        match a with knnSearch ?i ?q ?x ?y ?k ?p =>
          pose proof (Hcount i q x y k p) end end.
      lia.
    + destruct Hp as (Hd & Hq & Hs & Hdim). unfold index_unbuilt.
      intros [[? | ?] | [? | [? | [? | ?]]]]; try contradiction; lia.
  - intros _. do 5 eexists. split; [exact Hi |].
    split; [reflexivity |].
    cbn [mat_data rows cols matrices_in_gpu_ram set_matrices_in_gpu_ram].
    assert (Hnn : 0 <= size query * knn)
      by (pose proof (size_nonneg query); nia).
    rewrite !size_write_back, !size_resize by exact Hnn.
    repeat split.
Qed.

(** X8.  [SearchRadius] never looks at the radius to decide whether to
    search: on a well-formed object, with an engine that returns counts, it
    returns -1 exactly when there is no index to search, the batch is empty
    or the dimensions differ, whatever the radius (negative, zero, not a
    number); and when it returns -1 the result vectors are untouched and the
    engine has not been called. *)
Theorem SearchRadius_contract {T : Type} `{EigenVector T}
    (this : KDTreeFlann) (query : list T) (radius : float)
    (indices0 : list Z) (distance20 : list float) :
  well_formed this -> counts_nonnegative engine ->
  exists r,
    SearchRadius NUM_MAX_NN this query radius indices0 distance20 = Some r
    /\ (ret r = -1 <->
        index_unbuilt this \/ query = []
        \/ to_size_t SizeAtCompileTime <> dimension_ this)
    /\ (ret r = -1 -> r = mkSearchResult (-1) indices0 distance20 []).
Proof.
  intros Hwf [_ Hcount].
  destruct (checks_decide this query) as [Hp | Hrej].
  2:{ eexists. split; [apply SearchRadius_rejects; tauto |].
      cbn [rejected ret]. split; [tauto | reflexivity]. }
  destruct (passes_checks_index this query Hwf Hp) as [index Hi].
  pose proof (SearchRadius_accepts NUM_MAX_NN this query radius
                indices0 distance20 index Hp Hi) as E.
  cbv zeta in E.
  eexists. split; [exact E |].
  cbn [ret].
  assert (Hne : forall a, 0 <= count a -> count a <> -1) by (intros; lia).
  split; [split |].
  - intros Hret. exfalso. revert Hret. apply Hne, Hcount.
  - destruct Hp as (Hd & Hq & Hs & Hdim). unfold index_unbuilt.
    intros [[? | ?] | [? | ?]]; try contradiction; lia.
  - intros Hret. exfalso. revert Hret. apply Hne, Hcount.
Qed.

(** X9.  [SearchRadius] is [SearchHybrid] with the neighbour cap set to
    NUM_MAX_NN (for a non-negative NUM_MAX_NN): same result code, same
    result vectors, same call to the engine. *)
Theorem SearchHybrid_at_cap_is_SearchRadius {T : Type} `{EigenVector T}
    (this : KDTreeFlann) (query : list T) (radius : float)
    (indices0 : list Z) (distance20 : list float) :
  0 <= NUM_MAX_NN ->
  SearchHybrid this query radius NUM_MAX_NN indices0 distance20
  = SearchRadius NUM_MAX_NN this query radius indices0 distance20.
Proof.
  intros Hn. unfold SearchHybrid, SearchRadius.
  replace (NUM_MAX_NN <? 0) with false by (symmetry; apply Z.ltb_ge; lia).
  rewrite orb_false_r. reflexivity.
Qed.

(** X10.  [SearchHybrid] does not see the sign of the radius either, and
    nor does the dispatcher on a radius or a hybrid parameter. *)
Theorem SearchHybrid_sign_insensitive {T : Type} `{EigenVector T}
    (this : KDTreeFlann) (query : list T) (radius : float) (max_nn : Z)
    (indices0 : list Z) (distance20 : list float) :
  SearchHybrid this query (fneg radius) max_nn indices0 distance20
  = SearchHybrid this query radius max_nn indices0 distance20
  /\ Search NUM_MAX_NN this query
            (KDTreeSearchParamHybrid (fneg radius) max_nn) indices0 distance20
     = Search NUM_MAX_NN this query
              (KDTreeSearchParamHybrid radius max_nn) indices0 distance20
  /\ Search NUM_MAX_NN this query
            (KDTreeSearchParamRadius (fneg radius)) indices0 distance20
     = Search NUM_MAX_NN this query
              (KDTreeSearchParamRadius radius) indices0 distance20.
Proof.
  unfold Search. cbn [GetSearchType radius_ max_nn_].
  unfold SearchHybrid, SearchRadius. rewrite !fmul_fneg_fneg.
  repeat split.
Qed.

(** X11.  Build, then search: after a successful build over [data], a
    non-empty batch of points of the same type passes every check, and each
    search (for [SearchKNN]: with Q * knn below 2^31) hands the engine the
    index built over the padded copy of [data] together with the padded copy
    of the batch, one row per query. *)
Theorem build_then_search {T : Type} `{EigenVector T}
    (this : KDTreeFlann) (data query : list T)
    (knn : Z) (radius : float) (max_nn : Z)
    (indices0 : list Z) (distance20 : list float) :
  to_size_t SizeAtCompileTime <> 0 -> data <> [] -> query <> [] ->
  0 <= knn <= NUM_MAX_NN -> size query * knn < 2 ^ 31 -> 0 <= max_nn ->
  let this' := built_this (SetRawData this data) in
  let dim := to_size_t SizeAtCompileTime in
  let index :=
    mkIndex (mkMatrix (map convert_float4_functor data) (size data) dim
                      (Some 16)) true in
  let queries :=
    mkMatrix (map convert_float4_functor query) (size query) dim (Some 16) in
  (exists r indices_flann dists_flann param,
      SearchKNN NUM_MAX_NN this' query knn indices0 distance20 = Some r
      /\ events r = [KnnSearchCall index queries indices_flann dists_flann
                                   knn param])
  /\ (exists r indices_flann dists_flann param,
        SearchRadius NUM_MAX_NN this' query radius indices0 distance20
        = Some r
        /\ events r = [RadiusSearchCall index queries indices_flann
                         dists_flann (fmul radius radius) param])
  /\ (exists r indices_flann dists_flann param,
        SearchHybrid this' query radius max_nn indices0 distance20 = Some r
        /\ events r = [RadiusSearchCall index queries indices_flann
                         dists_flann (fmul radius radius) param]).
Proof.
  intros Hdim Hdata Hquery Hknn Hsmall Hmax. cbv zeta.
  rewrite (SetRawData_success this data Hdim Hdata).
  cbn [built_this].
  set (this' := mkKDTreeFlann _ _ _ _ _).
  assert (Hp : passes_checks this' query).
  { unfold passes_checks, this'.
    cbn [data_ dataset_size_ dimension_].
    split; [| split; [exact Hquery | split; [| reflexivity]]].
    - destruct data; [congruence | discriminate].
    - pose proof (size_nonneg data).
      assert (size data <> 0) by (rewrite size_zero_iff; exact Hdata).
      lia. }
  assert (Hi : flann_index_ this' = Some
                 (mkIndex (mkMatrix (map convert_float4_functor data)
                             (size data) (to_size_t SizeAtCompileTime)
                             (Some 16)) true)) by reflexivity.
  split; [| split].
  - assert (Hts : 0 <= to_int (to_size_t (size query * knn))).
    { pose proof (size_nonneg query).
      rewrite total_size_small by nia. nia. }
    pose proof (SearchKNN_accepts NUM_MAX_NN this' query knn
                  indices0 distance20 _ Hp Hknn Hts Hi) as E.
    cbv zeta in E. rewrite stage_queries_eq in E.
    do 4 eexists. split; [exact E | reflexivity].
  - pose proof (SearchRadius_accepts NUM_MAX_NN this' query radius
                  indices0 distance20 _ Hp Hi) as E.
    cbv zeta in E. rewrite stage_queries_eq in E.
    do 4 eexists. split; [exact E | reflexivity].
  - pose proof (SearchHybrid_accepts this' query radius max_nn
                  indices0 distance20 _ Hp Hmax Hi) as E.
    cbv zeta in E. rewrite stage_queries_eq in E.
    do 4 eexists. split; [exact E | reflexivity].
Qed.

(** X12.  Build in one dimension, query in another: after a successful
    build over points of one type, every search with points of a type of a
    different dimension returns -1, leaves the result vectors untouched and
    does not call the engine. *)
Theorem build_then_mismatched_query {T Q : Type}
    `{EigenVector T} `{EigenVector Q}
    (this : KDTreeFlann) (data : list T) (query : list Q)
    (knn : Z) (radius : float) (max_nn : Z)
    (indices0 : list Z) (distance20 : list float) :
  to_size_t (SizeAtCompileTime (T := T)) <> 0 -> data <> [] ->
  to_size_t (SizeAtCompileTime (T := Q))
  <> to_size_t (SizeAtCompileTime (T := T)) ->
  let this' := built_this (SetRawData this data) in
  SearchKNN NUM_MAX_NN this' query knn indices0 distance20
    = Some (mkSearchResult (-1) indices0 distance20 [])
  /\ SearchRadius NUM_MAX_NN this' query radius indices0 distance20
     = Some (mkSearchResult (-1) indices0 distance20 [])
  /\ SearchHybrid this' query radius max_nn indices0 distance20
     = Some (mkSearchResult (-1) indices0 distance20 []).
Proof.
  intros Hdim Hdata Hne. cbv zeta.
  rewrite (SetRawData_success this data Hdim Hdata).
  cbn [built_this]. fold (rejected indices0 distance20).
  split; [| split].
  - apply SearchKNN_rejects. do 4 right. exact Hne.
  - apply SearchRadius_rejects. do 2 right. exact Hne.
  - apply SearchHybrid_rejects. do 3 right. exact Hne.
Qed.

Lemma resize_zero {A : Type} (dflt : A) (v : list A) : resize 0 dflt v = [].
Proof. reflexivity. Qed.

Lemma write_back_nil {A : Type} (out : list A) : write_back out [] = [].
Proof. reflexivity. Qed.

(** X13.  Zero neighbours is not an error: a batch that passes the checks
    with [knn = 0] (or [max_nn = 0]) still goes to the engine, and the
    result vectors come back empty, whatever they held. *)
Theorem zero_neighbours {T : Type} `{EigenVector T}
    (this : KDTreeFlann) (query : list T) (radius : float)
    (indices0 : list Z) (distance20 : list float) :
  well_formed this -> passes_checks this query -> 0 <= NUM_MAX_NN ->
  (exists r index queries indices_flann dists_flann param,
      SearchKNN NUM_MAX_NN this query 0 indices0 distance20 = Some r
      /\ events r = [KnnSearchCall index queries indices_flann dists_flann
                                   0 param]
      /\ indices r = [] /\ distance2 r = [])
  /\ (exists r index queries indices_flann dists_flann param,
        SearchHybrid this query radius 0 indices0 distance20 = Some r
        /\ events r = [RadiusSearchCall index queries indices_flann
                         dists_flann (fmul radius radius) param]
        /\ max_neighbors param = 0
        /\ indices r = [] /\ distance2 r = []).
Proof.
  intros Hwf Hp Hn.
  destruct (passes_checks_index this query Hwf Hp) as [index Hi].
  split.
  - assert (Hts : 0 <= to_int (to_size_t (size query * 0)))
      by (rewrite Z.mul_0_r; vm_compute; discriminate).
    pose proof (SearchKNN_accepts NUM_MAX_NN this query 0
                  indices0 distance20 index Hp (conj (Z.le_refl 0) Hn)
                  Hts Hi)
      as E.
    cbv zeta in E. rewrite Z.mul_0_r in E.
    change (to_size_t (to_int (to_size_t 0))) with 0 in E.
    rewrite !resize_zero, !write_back_nil in E.
    do 6 eexists. split; [exact E |]. cbn. repeat split.
  - pose proof (SearchHybrid_accepts this query radius 0
                  indices0 distance20 index Hp (Z.le_refl 0) Hi) as E.
    cbv zeta in E. rewrite Z.mul_0_r in E.
    change (to_size_t 0) with 0 in E.
    rewrite !resize_zero, !write_back_nil in E.
    do 6 eexists. split; [exact E |]. cbn. repeat split.
Qed.

(** X14.  What [SearchKNN] does once Q * knn reaches 2^31, on a batch that
    passes the checks.  Where the product comes out of [int] negative the
    call does not return: [resize] throws before the engine is called.
    Where it comes out non-negative the engine is called with result views
    of Q rows and [knn] columns, but over vectors whose size is that
    truncated value, which is less than Q * knn. *)
Theorem SearchKNN_truncates_large_products {T : Type} `{EigenVector T}
    (this : KDTreeFlann) (query : list T) (knn : Z)
    (indices0 : list Z) (distance20 : list float) :
  well_formed this -> passes_checks this query -> 0 <= knn <= NUM_MAX_NN ->
  2 ^ 31 <= size query * knn < 2 ^ 64 ->
  (to_int (size query * knn) < 0 ->
   SearchKNN NUM_MAX_NN this query knn indices0 distance20 = None)
  /\ (0 <= to_int (size query * knn) ->
      exists r index queries indices_flann dists_flann param,
        SearchKNN NUM_MAX_NN this query knn indices0 distance20 = Some r
        /\ events r = [KnnSearchCall index queries indices_flann dists_flann
                                     knn param]
        /\ rows indices_flann = size query /\ cols indices_flann = knn
        /\ rows dists_flann = size query /\ cols dists_flann = knn
        /\ size (mat_data indices_flann) = size (indices r)
        /\ size (mat_data dists_flann) = size (distance2 r)
        /\ size (indices r) = to_int (size query * knn)
        /\ size (distance2 r) = to_int (size query * knn)
        /\ size (indices r) < size query * knn
        /\ size (distance2 r) < size query * knn).
Proof.
  intros Hwf Hp Hk Hn.
  assert (Hsz : to_size_t (size query * knn) = size query * knn)
    by (apply to_size_t_small; lia).
  split; intros Hts.
  - apply SearchKNN_throws; [exact Hp | exact Hk |].
    rewrite Hsz. exact Hts.
  - destruct (passes_checks_index this query Hwf Hp) as [index Hi].
    pose proof (SearchKNN_accepts NUM_MAX_NN this query knn
                  indices0 distance20 index Hp Hk
                  ltac:(rewrite Hsz; exact Hts) Hi) as E.
    cbv zeta in E. rewrite Hsz in E.
    assert (Hb : to_int (size query * knn) < 2 ^ 31).
    { unfold to_int.
      pose proof (Z.mod_pos_bound (size query * knn + 2 ^ 31) (2 ^ 32)
                    ltac:(lia)). lia. }
    rewrite (to_size_t_small (to_int (size query * knn))) in E by lia.
    do 6 eexists. split; [exact E |].
    cbn [events]. split; [reflexivity |].
    cbn [ret indices distance2 mat_data rows cols].
    rewrite !size_write_back, !size_resize by exact Hts.
    repeat split; lia.
Qed.

(** X15.  A single-query overload that is turned away hands back empty
    result vectors, where the batch form leaves the caller's vectors as they
    were: with no index to search, or a point of the wrong dimension, each
    single-query search returns -1 and empties both host vectors. *)
Theorem single_query_rejection_clears_vectors {T : Type} `{EigenVector T}
    (this : KDTreeFlann) (point : T)
    (knn : Z) (radius : float) (max_nn : Z)
    (indices0 : list Z) (distance20 : list float) :
  index_unbuilt this \/ to_size_t SizeAtCompileTime <> dimension_ this ->
  SearchKNN_single NUM_MAX_NN this point knn indices0 distance20
    = Some (mkSearchResult (-1) [] [] [])
  /\ SearchRadius_single NUM_MAX_NN this point radius indices0 distance20
     = Some (mkSearchResult (-1) [] [] [])
  /\ SearchHybrid_single this point radius max_nn indices0 distance20
     = Some (mkSearchResult (-1) [] [] [])
  /\ SearchKNN NUM_MAX_NN this [point] knn indices0 distance20
     = Some (mkSearchResult (-1) indices0 distance20 [])
  /\ SearchRadius NUM_MAX_NN this [point] radius indices0 distance20
     = Some (mkSearchResult (-1) indices0 distance20 [])
  /\ SearchHybrid this [point] radius max_nn indices0 distance20
     = Some (mkSearchResult (-1) indices0 distance20 []).
Proof.
  intros Hc.
  assert (Hk : forall k i d,
             SearchKNN NUM_MAX_NN this [point] k i d = Some (rejected i d))
    by (intros; apply SearchKNN_rejects; tauto).
  assert (Hr : forall r i d,
             SearchRadius NUM_MAX_NN this [point] r i d = Some (rejected i d))
    by (intros; apply SearchRadius_rejects; tauto).
  assert (Hh : forall r m i d,
             SearchHybrid this [point] r m i d = Some (rejected i d))
    by (intros; apply SearchHybrid_rejects; tauto).
  unfold SearchKNN_single, SearchRadius_single, SearchHybrid_single.
  cbn [repeat]. rewrite !Hk, !Hr, !Hh. repeat split.
Qed.

(** X16.  An accepted single-query KNN search hands back exactly [knn]
    indices and [knn] squared distances (for [knn] below 2^31), and what it
    hands back does not depend on what the host vectors held. *)
Theorem SearchKNN_single_size {T : Type} `{EigenVector T}
    (this : KDTreeFlann) (point : T) (knn : Z)
    (indices0 : list Z) (distance20 : list float) :
  well_formed this -> passes_checks this [point] ->
  0 <= knn <= NUM_MAX_NN -> knn < 2 ^ 31 ->
  exists r,
    SearchKNN_single NUM_MAX_NN this point knn indices0 distance20 = Some r
    /\ size (indices r) = knn /\ size (distance2 r) = knn
    /\ forall indices1 distance21,
        SearchKNN_single NUM_MAX_NN this point knn indices1 distance21
        = Some r.
Proof.
  intros Hwf Hp Hk Hn.
  destruct (passes_checks_index this [point] Hwf Hp) as [index Hi].
  assert (Hone : size [point] * knn = knn)
    by (change (size [point]) with 1; lia).
  assert (Hts : to_int (to_size_t (size [point] * knn)) = knn)
    by (rewrite Hone; apply total_size_small; lia).
  destruct (SearchKNN_result_size NUM_MAX_NN this [point] knn [] [] index
              Hp Hk ltac:(rewrite Hts; lia) Hi) as (r & E & Si & Sd & _).
  assert (Hsz : to_size_t (to_int (to_size_t (size [point] * knn))) = knn)
    by (rewrite Hts; apply to_size_t_small; lia).
  rewrite Hsz in Si, Sd.
  exists r. unfold SearchKNN_single. cbn [repeat]. rewrite E.
  destruct r as [c ixs dists evs]. cbn in *. repeat split; assumption.
Qed.

(** X17.  A freshly constructed object has nothing to search: every batch
    search and the dispatcher return -1 on it without a call to the engine.
    The object constructed from a geometry is well-formed; it is the fresh
    object itself when the geometry is neither a point cloud nor a triangle
    mesh, and has nothing to search either when the geometry has no
    points. *)
Theorem fresh_object_rejects {T TP TM : Type}
    `{EigenVector T} `{EigenVector TP} `{EigenVector TM}
    (query : list T) (knn : Z) (radius : float) (max_nn : Z)
    (param : KDTreeSearchParam)
    (indices0 : list Z) (distance20 : list float)
    (geometry : Geometry TP TM) :
  SearchKNN NUM_MAX_NN KDTreeFlann_new query knn indices0 distance20
    = Some (mkSearchResult (-1) indices0 distance20 [])
  /\ SearchRadius NUM_MAX_NN KDTreeFlann_new query radius indices0 distance20
     = Some (mkSearchResult (-1) indices0 distance20 [])
  /\ SearchHybrid KDTreeFlann_new query radius max_nn indices0 distance20
     = Some (mkSearchResult (-1) indices0 distance20 [])
  /\ Search NUM_MAX_NN KDTreeFlann_new query param indices0 distance20
     = Some (mkSearchResult (-1) indices0 distance20 [])
  /\ well_formed (KDTreeFlann_of geometry)
  /\ (GetGeometryType geometry <> PointCloud ->
      GetGeometryType geometry <> TriangleMesh ->
      KDTreeFlann_of geometry = KDTreeFlann_new)
  /\ index_unbuilt (KDTreeFlann_of (TP := TP) (TM := TM) (APointCloud []))
  /\ index_unbuilt (KDTreeFlann_of (TP := TP) (TM := TM) (ATriangleMesh [])).
Proof.
  assert (Hu : index_unbuilt KDTreeFlann_new) by (left; reflexivity).
  fold (rejected indices0 distance20).
  split; [apply SearchKNN_rejects; tauto |].
  split; [apply SearchRadius_rejects; tauto |].
  split; [apply SearchHybrid_rejects; tauto |].
  split.
  { unfold Search. destruct (GetSearchType param);
      [apply SearchKNN_rejects | apply SearchRadius_rejects
       | apply SearchHybrid_rejects | reflexivity]; tauto. }
  split; [apply KDTreeFlann_of_well_formed |].
  split.
  { destruct geometry; cbn [GetGeometryType]; intros Hp Hm;
      try reflexivity; congruence. }
  unfold KDTreeFlann_of. cbn [SetGeometry].
  split; apply index_unbuilt_after_empty_build.
Qed.

End Further_search_properties.

(** ** The further properties at concrete inputs *)

(** X6 at the KNN search of two neighbours of the origin on the sample
    index. *)
Lemma search_effects_witness :
  let r :=
    mkSearchResult 0 [7; 8] [fzero; fzero]
      [KnnSearchCall
         (mkIndex (mkMatrix (data_ Sample.built3) 3 3 (Some 16)) true)
         (mkMatrix [float4_zero] 1 3 (Some 16))
         (mkMatrix [7; 8] 1 2 None)
         (mkMatrix [fzero; fzero] 1 2 None)
         2 (mkSearchParams 32 fzero (-1) true)] in
  (SearchKNN (engine := Sample.null_engine) 100
             Sample.built3 [Sample.origin3] 2 [7; 8; 9] [] = Some r
   \/ SearchRadius (engine := Sample.null_engine) 100
                   Sample.built3 [Sample.origin3] fzero [7; 8; 9] [] = Some r
   \/ SearchHybrid (engine := Sample.null_engine)
                   Sample.built3 [Sample.origin3] fzero 0 [7; 8; 9] []
      = Some r)
  /\ (length (events r) <= 1)%nat
  /\ forallb is_search_call (events r) = true
  /\ (events r = [] -> r = mkSearchResult (-1) [7; 8; 9] [] []).
Proof.
  intros r.
  assert (Hr : SearchKNN (engine := Sample.null_engine) 100
                 Sample.built3 [Sample.origin3] 2 [7; 8; 9] [] = Some r
               \/ SearchRadius (engine := Sample.null_engine) 100
                    Sample.built3 [Sample.origin3] fzero [7; 8; 9] []
                  = Some r
               \/ SearchHybrid (engine := Sample.null_engine)
                    Sample.built3 [Sample.origin3] fzero 0 [7; 8; 9] []
                  = Some r)
    by (left; reflexivity).
  split; [exact Hr |].
  apply (search_effects (engine := Sample.null_engine) 100
           Sample.built3 [Sample.origin3] 2 fzero 0 [7; 8; 9] [] r Hr).
Defined.

(** X7 at two neighbours of the origin on the sample index. *)
Lemma SearchKNN_contract_witness :
  well_formed Sample.built3
  /\ counts_nonnegative Sample.null_engine
  /\ size [Sample.origin3] * 2 < 2 ^ 31
  /\ exists r,
      SearchKNN (engine := Sample.null_engine) 100
                Sample.built3 [Sample.origin3] 2 [] [] = Some r
      /\ (ret r = -1 <->
          index_unbuilt Sample.built3 \/ [Sample.origin3] = []
          \/ 2 < 0 \/ 100 < 2
          \/ to_size_t (SizeAtCompileTime (T := Vector3f))
             <> dimension_ Sample.built3)
      /\ (ret r <> -1 ->
          exists index queries indices_flann dists_flann param,
            flann_index_ Sample.built3 = Some index
            /\ events r = [KnnSearchCall index queries indices_flann
                             dists_flann 2 param]
            /\ ret r = count (knnSearch (FlannEngine := Sample.null_engine)
                                index queries indices_flann dists_flann
                                2 param)
            /\ mat_data queries = map convert_float4_functor [Sample.origin3]
            /\ rows queries = size [Sample.origin3]
            /\ matrices_in_gpu_ram param = true
            /\ rows indices_flann = size [Sample.origin3]
            /\ cols indices_flann = 2
            /\ rows dists_flann = size [Sample.origin3]
            /\ cols dists_flann = 2
            /\ size (indices r) = size [Sample.origin3] * 2
            /\ size (distance2 r) = size [Sample.origin3] * 2).
Proof.
  assert (Hwf : well_formed Sample.built3).
  { intros _. eexists. vm_compute. split; [| split; reflexivity].
    reflexivity. }
  assert (Hc : counts_nonnegative Sample.null_engine).
  { split; intros; vm_compute; discriminate. }
  assert (Hn : size [Sample.origin3] * 2 < 2 ^ 31) by reflexivity.
  split; [exact Hwf |]. split; [exact Hc |]. split; [exact Hn |].
  apply (SearchKNN_contract (engine := Sample.null_engine) 100
           Sample.built3 [Sample.origin3] 2 [] [] Hwf Hc Hn).
Defined.

(** X8 at a radius search around the origin on the sample index. *)
Lemma SearchRadius_contract_witness :
  well_formed Sample.built3
  /\ counts_nonnegative Sample.null_engine
  /\ exists r,
      SearchRadius (engine := Sample.null_engine) 100
                   Sample.built3 [Sample.origin3] Sample.fone [] [] = Some r
      /\ (ret r = -1 <->
          index_unbuilt Sample.built3 \/ [Sample.origin3] = []
          \/ to_size_t (SizeAtCompileTime (T := Vector3f))
             <> dimension_ Sample.built3)
      /\ (ret r = -1 -> r = mkSearchResult (-1) [] [] []).
Proof.
  assert (Hwf : well_formed Sample.built3).
  { intros _. eexists. vm_compute. split; [| split; reflexivity].
    reflexivity. }
  assert (Hc : counts_nonnegative Sample.null_engine).
  { split; intros; vm_compute; discriminate. }
  split; [exact Hwf |]. split; [exact Hc |].
  apply (SearchRadius_contract (engine := Sample.null_engine) 100
           Sample.built3 [Sample.origin3] Sample.fone [] [] Hwf Hc).
Defined.

(** X9 with NUM_MAX_NN = 100. *)
Lemma SearchHybrid_at_cap_is_SearchRadius_witness :
  0 <= 100
  /\ SearchHybrid (engine := Sample.null_engine)
                  Sample.built3 [Sample.origin3] Sample.fone 100 [] []
     = SearchRadius (engine := Sample.null_engine) 100
                    Sample.built3 [Sample.origin3] Sample.fone [] [].
Proof.
  assert (Hn : 0 <= 100) by (vm_compute; discriminate).
  split; [exact Hn |].
  apply (SearchHybrid_at_cap_is_SearchRadius
           (engine := Sample.null_engine) 100
           Sample.built3 [Sample.origin3] Sample.fone [] [] Hn).
Defined.

(** X11 at a build over the three sample points followed by searches
    around the origin. *)
Lemma build_then_search_witness :
  to_size_t (SizeAtCompileTime (T := Vector3f)) <> 0
  /\ Sample.points3 <> [] /\ [Sample.origin3] <> []
  /\ 0 <= 2 <= 100 /\ size [Sample.origin3] * 2 < 2 ^ 31 /\ 0 <= 2
  /\ let this' := built_this (SetRawData KDTreeFlann_new Sample.points3) in
     let dim := to_size_t (SizeAtCompileTime (T := Vector3f)) in
     let index :=
       mkIndex (mkMatrix (map convert_float4_functor Sample.points3)
                         (size Sample.points3) dim (Some 16)) true in
     let queries :=
       mkMatrix (map convert_float4_functor [Sample.origin3])
                (size [Sample.origin3]) dim (Some 16) in
     (exists r indices_flann dists_flann param,
         SearchKNN (engine := Sample.null_engine) 100
                   this' [Sample.origin3] 2 [] [] = Some r
         /\ events r = [KnnSearchCall index queries indices_flann dists_flann
                                      2 param])
     /\ (exists r indices_flann dists_flann param,
           SearchRadius (engine := Sample.null_engine) 100
                        this' [Sample.origin3] Sample.fone [] [] = Some r
           /\ events r = [RadiusSearchCall index queries indices_flann
                            dists_flann (fmul Sample.fone Sample.fone) param])
     /\ (exists r indices_flann dists_flann param,
           SearchHybrid (engine := Sample.null_engine)
                        this' [Sample.origin3] Sample.fone 2 [] [] = Some r
           /\ events r = [RadiusSearchCall index queries indices_flann
                            dists_flann (fmul Sample.fone Sample.fone) param]).
Proof.
  assert (Hdim : to_size_t (SizeAtCompileTime (T := Vector3f)) <> 0)
    by (vm_compute; discriminate).
  assert (Hdata : Sample.points3 <> []) by discriminate.
  assert (Hquery : [Sample.origin3] <> []) by discriminate.
  assert (Hknn : 0 <= 2 <= 100) by (split; vm_compute; discriminate).
  assert (Hsmall : size [Sample.origin3] * 2 < 2 ^ 31) by reflexivity.
  assert (Hmax : 0 <= 2) by (vm_compute; discriminate).
  split; [exact Hdim |]. split; [exact Hdata |]. split; [exact Hquery |].
  split; [exact Hknn |]. split; [exact Hsmall |]. split; [exact Hmax |].
  apply (build_then_search (engine := Sample.null_engine) 100
           KDTreeFlann_new Sample.points3 [Sample.origin3] 2 Sample.fone 2
           [] [] Hdim Hdata Hquery Hknn Hsmall Hmax).
Defined.

(** X12 at a build over the three 3D sample points followed by searches
    with one 2D point. *)
Lemma build_then_mismatched_query_witness :
  to_size_t (SizeAtCompileTime (T := Vector3f)) <> 0
  /\ Sample.points3 <> []
  /\ to_size_t (SizeAtCompileTime (T := Vector2f))
     <> to_size_t (SizeAtCompileTime (T := Vector3f))
  /\ let this' := built_this (SetRawData KDTreeFlann_new Sample.points3) in
     SearchKNN (engine := Sample.null_engine) 100
               this' [Sample.origin2] 1 [5] [Sample.fone]
       = Some (mkSearchResult (-1) [5] [Sample.fone] [])
     /\ SearchRadius (engine := Sample.null_engine) 100
                     this' [Sample.origin2] Sample.fone [5] [Sample.fone]
        = Some (mkSearchResult (-1) [5] [Sample.fone] [])
     /\ SearchHybrid (engine := Sample.null_engine)
                     this' [Sample.origin2] Sample.fone 1 [5] [Sample.fone]
        = Some (mkSearchResult (-1) [5] [Sample.fone] []).
Proof.
  assert (Hdim : to_size_t (SizeAtCompileTime (T := Vector3f)) <> 0)
    by (vm_compute; discriminate).
  assert (Hdata : Sample.points3 <> []) by discriminate.
  assert (Hne : to_size_t (SizeAtCompileTime (T := Vector2f))
                <> to_size_t (SizeAtCompileTime (T := Vector3f)))
    by (vm_compute; discriminate).
  split; [exact Hdim |]. split; [exact Hdata |]. split; [exact Hne |].
  apply (build_then_mismatched_query (engine := Sample.null_engine) 100
           KDTreeFlann_new Sample.points3 [Sample.origin2] 1 Sample.fone 1
           [5] [Sample.fone] Hdim Hdata Hne).
Defined.

(** X13 on the sample index, the result vectors holding three elements
    each before the call. *)
Lemma zero_neighbours_witness :
  well_formed Sample.built3
  /\ passes_checks Sample.built3 [Sample.origin3]
  /\ 0 <= 100
  /\ (exists r index queries indices_flann dists_flann param,
         SearchKNN (engine := Sample.null_engine) 100
                   Sample.built3 [Sample.origin3] 0
                   [7; 8; 9] [fzero; fzero; fzero] = Some r
         /\ events r = [KnnSearchCall index queries indices_flann dists_flann
                                      0 param]
         /\ indices r = [] /\ distance2 r = [])
  /\ (exists r index queries indices_flann dists_flann param,
         SearchHybrid (engine := Sample.null_engine)
                      Sample.built3 [Sample.origin3] Sample.fone 0
                      [7; 8; 9] [fzero; fzero; fzero] = Some r
         /\ events r = [RadiusSearchCall index queries indices_flann
                          dists_flann (fmul Sample.fone Sample.fone) param]
         /\ max_neighbors param = 0
         /\ indices r = [] /\ distance2 r = []).
Proof.
  assert (Hwf : well_formed Sample.built3).
  { intros _. eexists. vm_compute. split; [| split; reflexivity].
    reflexivity. }
  assert (Hp : passes_checks Sample.built3 [Sample.origin3]).
  { unfold passes_checks.
    split; [discriminate | split; [discriminate | split; reflexivity]]. }
  assert (Hn : 0 <= 100) by (vm_compute; discriminate).
  split; [exact Hwf |]. split; [exact Hp |]. split; [exact Hn |].
  apply (zero_neighbours (engine := Sample.null_engine) 100
           Sample.built3 [Sample.origin3] Sample.fone
           [7; 8; 9] [fzero; fzero; fzero] Hwf Hp Hn).
Defined.

(** X14 at the batch of 42,949,673 queries with knn = 100. *)
Lemma SearchKNN_truncates_large_products_witness :
  well_formed Sample.built3
  /\ passes_checks Sample.built3 Sample.large_batch
  /\ 0 <= 100 <= 100
  /\ 2 ^ 31 <= size Sample.large_batch * 100 < 2 ^ 64
  /\ (to_int (size Sample.large_batch * 100) < 0 ->
      SearchKNN (engine := Sample.null_engine) 100
                Sample.built3 Sample.large_batch 100 [] [] = None)
  /\ (0 <= to_int (size Sample.large_batch * 100) ->
      exists r index queries indices_flann dists_flann param,
        SearchKNN (engine := Sample.null_engine) 100
                  Sample.built3 Sample.large_batch 100 [] [] = Some r
        /\ events r = [KnnSearchCall index queries indices_flann dists_flann
                                     100 param]
        /\ rows indices_flann = size Sample.large_batch
        /\ cols indices_flann = 100
        /\ rows dists_flann = size Sample.large_batch
        /\ cols dists_flann = 100
        /\ size (mat_data indices_flann) = size (indices r)
        /\ size (mat_data dists_flann) = size (distance2 r)
        /\ size (indices r) = to_int (size Sample.large_batch * 100)
        /\ size (distance2 r) = to_int (size Sample.large_batch * 100)
        /\ size (indices r) < size Sample.large_batch * 100
        /\ size (distance2 r) < size Sample.large_batch * 100).
Proof.
  assert (Hwf : well_formed Sample.built3).
  { intros _. eexists. vm_compute. split; [| split; reflexivity].
    reflexivity. }
  assert (Hk : 0 <= 100 <= 100) by (split; vm_compute; discriminate).
  assert (Hn : 2 ^ 31 <= size Sample.large_batch * 100 < 2 ^ 64).
  { rewrite size_large_batch. split; vm_compute; [discriminate | reflexivity]. }
  split; [exact Hwf |]. split; [exact passes_checks_large_batch |].
  split; [exact Hk |]. split; [exact Hn |].
  apply (SearchKNN_truncates_large_products (engine := Sample.null_engine)
           100 Sample.built3 Sample.large_batch 100 [] []
           Hwf passes_checks_large_batch Hk Hn).
Defined.

(** X15 on a fresh object, the host vectors holding one element each. *)
Lemma single_query_rejection_clears_vectors_witness :
  (index_unbuilt KDTreeFlann_new
   \/ to_size_t (SizeAtCompileTime (T := Vector3f))
      <> dimension_ KDTreeFlann_new)
  /\ SearchKNN_single (engine := Sample.null_engine) 100
       KDTreeFlann_new Sample.origin3 1 [5] [Sample.fone]
     = Some (mkSearchResult (-1) [] [] [])
  /\ SearchRadius_single (engine := Sample.null_engine) 100
       KDTreeFlann_new Sample.origin3 Sample.fone [5] [Sample.fone]
     = Some (mkSearchResult (-1) [] [] [])
  /\ SearchHybrid_single (engine := Sample.null_engine)
       KDTreeFlann_new Sample.origin3 Sample.fone 1 [5] [Sample.fone]
     = Some (mkSearchResult (-1) [] [] [])
  /\ SearchKNN (engine := Sample.null_engine) 100
       KDTreeFlann_new [Sample.origin3] 1 [5] [Sample.fone]
     = Some (mkSearchResult (-1) [5] [Sample.fone] [])
  /\ SearchRadius (engine := Sample.null_engine) 100
       KDTreeFlann_new [Sample.origin3] Sample.fone [5] [Sample.fone]
     = Some (mkSearchResult (-1) [5] [Sample.fone] [])
  /\ SearchHybrid (engine := Sample.null_engine)
       KDTreeFlann_new [Sample.origin3] Sample.fone 1 [5] [Sample.fone]
     = Some (mkSearchResult (-1) [5] [Sample.fone] []).
Proof.
  assert (Hc : index_unbuilt KDTreeFlann_new
               \/ to_size_t (SizeAtCompileTime (T := Vector3f))
                  <> dimension_ KDTreeFlann_new)
    by (left; left; reflexivity).
  split; [exact Hc |].
  apply (single_query_rejection_clears_vectors
           (engine := Sample.null_engine) 100
           KDTreeFlann_new Sample.origin3 1 Sample.fone 1
           [5] [Sample.fone] Hc).
Defined.

(** X16 at two neighbours of the origin on the sample index. *)
Lemma SearchKNN_single_size_witness :
  well_formed Sample.built3
  /\ passes_checks Sample.built3 [Sample.origin3]
  /\ 0 <= 2 <= 100 /\ 2 < 2 ^ 31
  /\ exists r,
      SearchKNN_single (engine := Sample.null_engine) 100
                       Sample.built3 Sample.origin3 2 [5] [Sample.fone]
      = Some r
      /\ size (indices r) = 2 /\ size (distance2 r) = 2
      /\ forall indices1 distance21,
          SearchKNN_single (engine := Sample.null_engine) 100
                           Sample.built3 Sample.origin3 2 indices1 distance21
          = Some r.
Proof.
  assert (Hwf : well_formed Sample.built3).
  { intros _. eexists. vm_compute. split; [| split; reflexivity].
    reflexivity. }
  assert (Hp : passes_checks Sample.built3 [Sample.origin3]).
  { unfold passes_checks.
    split; [discriminate | split; [discriminate | split; reflexivity]]. }
  assert (Hk : 0 <= 2 <= 100) by (split; vm_compute; discriminate).
  assert (Hn : 2 < 2 ^ 31) by reflexivity.
  split; [exact Hwf |]. split; [exact Hp |].
  split; [exact Hk |]. split; [exact Hn |].
  apply (SearchKNN_single_size (engine := Sample.null_engine) 100
           Sample.built3 Sample.origin3 2 [5] [Sample.fone] Hwf Hp Hk Hn).
Defined.
